(** * robust-data-processor: the ingest and worker Lambda handlers

    A shallow embedding of [src/ingest.py] and [src/worker.py].

    - Python values that travel through the handlers (parsed JSON, envelope
      fields) are the inductive [pyval]; a [dict] is an association list in
      insertion order.
    - A Python [str] is a [string] whose characters are code points below
      256; [len], slicing, [in] and [str.lower] are exact on them.
    - Calls into the Python runtime library ([json], [base64], [bytes.decode],
      [repr]) are the members of the class [PyLib]; every theorem holds for
      every implementation of it.  [RefLib] is an executable instance used to
      run the handlers on concrete submissions.
    - Events are typed as the gateway and the queue deliver them: header
      values, bodies and message identifiers are text, and a key that an
      event may lack is an [option].
    - The queue, the table, the clock and the random source are external:
      their state is threaded explicitly and their answers come from an
      environment record.
    - [print] only writes to the log and is left out. *)

From Stdlib Require Import ZArith NArith String Ascii List Bool Lia SpecFloat.
From stdpp Require Import gmap strings list countable.

Set Warnings "-register-all,-abstract-large-number".
Local Open Scope string_scope.

(* ================================================================== *)
(** * Python values, exceptions and built-ins *)

Module Py.

(** What [json.loads] can build, and what the handlers pass around. *)
Inductive pyval : Type :=
| PNone
| PBool (b : bool)
| PInt (n : Z)
| PFloat (f : spec_float)
| PStr (s : string)
| PList (l : list pyval)
| PDict (d : list (string * pyval)).

(** The exception classes the handlers can meet; all derive from
    [Exception]. *)
Inductive exn : Type :=
| JSONDecodeError
| BinasciiError
| UnicodeDecodeError
| ValueError
| AttributeError
| TypeError
| KeyError
| RecursionError
| ClientError.

(** A call either returns or raises. *)
Inductive result (A : Type) : Type :=
| Ok (a : A)
| Raise (e : exn).
Arguments Ok {A} a.
Arguments Raise {A} e.

Definition rbind {A B} (r : result A) (k : A -> result B) : result B :=
  match r with
  | Ok a => k a
  | Raise e => Raise e
  end.

(** ** Structural induction through the nested lists *)

Lemma pyval_nested_ind (P : pyval -> Prop) :
  P PNone ->
  (forall b, P (PBool b)) ->
  (forall n, P (PInt n)) ->
  (forall f, P (PFloat f)) ->
  (forall s, P (PStr s)) ->
  (forall l, Forall P l -> P (PList l)) ->
  (forall d, Forall (fun kv => P (snd kv)) d -> P (PDict d)) ->
  forall v, P v.
Proof.
  intros HN HB HI HF HS HL HD.
  fix IH 1. intros [ | b | n | f | s | l | d].
  - exact HN.
  - apply HB.
  - apply HI.
  - apply HF.
  - apply HS.
  - apply HL. induction l as [ | v l IHl]; constructor; [apply IH | exact IHl].
  - apply HD. induction d as [ | [k v] d IHd]; constructor; [apply IH | exact IHd].
Qed.

(** ** Values are countable, so they can key a finite map *)

Definition float_code (f : spec_float) : bool + bool + unit + bool * positive * Z :=
  match f with
  | S754_zero s => inl (inl (inl s))
  | S754_infinity s => inl (inl (inr s))
  | S754_nan => inl (inr tt)
  | S754_finite s m e => inr (s, m, e)
  end.

Definition float_decode (c : bool + bool + unit + bool * positive * Z) : spec_float :=
  match c with
  | inl (inl (inl s)) => S754_zero s
  | inl (inl (inr s)) => S754_infinity s
  | inl (inr _) => S754_nan
  | inr (s, m, e) => S754_finite s m e
  end.

Definition leaf : Type :=
  unit + bool + Z + (bool + bool + unit + bool * positive * Z) + string.

Fixpoint encode (v : pyval) : gen_tree leaf :=
  match v with
  | PNone => GenLeaf (inl (inl (inl (inl tt))))
  | PBool b => GenLeaf (inl (inl (inl (inr b))))
  | PInt n => GenLeaf (inl (inl (inr n)))
  | PFloat f => GenLeaf (inl (inr (float_code f)))
  | PStr s => GenLeaf (inr s)
  | PList l => GenNode 0 (List.map encode l)
  | PDict d =>
      GenNode 1 (List.map (fun kv => GenNode 2 [GenLeaf (inr (fst kv)); encode (snd kv)]) d)
  end.

Fixpoint decode (t : gen_tree leaf) : pyval :=
  match t with
  | GenLeaf (inl (inl (inl (inl _)))) => PNone
  | GenLeaf (inl (inl (inl (inr b)))) => PBool b
  | GenLeaf (inl (inl (inr n))) => PInt n
  | GenLeaf (inl (inr c)) => PFloat (float_decode c)
  | GenLeaf (inr s) => PStr s
  | GenNode 0 ts => PList (List.map decode ts)
  | GenNode _ ts =>
      PDict (List.map (fun t' =>
                         match t' with
                         | GenNode _ [GenLeaf (inr k); tv] => (k, decode tv)
                         | _ => (EmptyString, PNone)
                         end) ts)
  end.

Lemma float_decode_code f : float_decode (float_code f) = f.
Proof. destruct f; reflexivity. Qed.

Lemma decode_encode v : decode (encode v) = v.
Proof.
  induction v as [ | b | n | f | s | l IH | d IH] using pyval_nested_ind;
    simpl; try reflexivity.
  - now rewrite float_decode_code.
  - f_equal. induction IH as [ | v l Hv _ IHl]; simpl; [reflexivity | ].
    now rewrite Hv, IHl.
  - f_equal. induction IH as [ | [k v] d Hv _ IHd]; simpl; [reflexivity | ].
    simpl in Hv. now rewrite Hv, IHd.
Qed.

#[export] Instance pyval_eq_dec : EqDecision pyval.
Proof.
  intros x y. destruct (decide (encode x = encode y)) as [E | E].
  - left. rewrite <- (decode_encode x), <- (decode_encode y). now rewrite E.
  - right. intros ->. now apply E.
Defined.

#[export] Instance pyval_countable : Countable pyval :=
  inj_countable' encode decode decode_encode.

#[export] Instance exn_eq_dec : EqDecision exn.
Proof. solve_decision. Defined.

#[export] Instance spec_float_eq_dec : EqDecision spec_float.
Proof. solve_decision. Defined.

(** ** Built-in operations on [str] *)

(** [c.lower()] for one character: the ASCII capitals and the Latin-1
    capitals U+00C0..U+00DE (U+00D7, the multiplication sign, is not a
    letter) move 32 code points up. *)
Definition lower_char (c : ascii) : ascii :=
  let n := nat_of_ascii c in
  if (((65 <=? n) && (n <=? 90)) || ((192 <=? n) && (n <=? 222) && negb (n =? 215)))%nat
  then ascii_of_nat (n + 32)
  else c.

(** [s.lower()] *)
Fixpoint lower (s : string) : string :=
  match s with
  | EmptyString => EmptyString
  | String c t => String (lower_char c) (lower t)
  end.

(** [needle in hay] on two strings: [needle] occurs at some position. *)
Fixpoint contains (needle hay : string) : bool :=
  String.prefix needle hay ||
  match hay with
  | EmptyString => false
  | String _ t => contains needle t
  end.

(** [s[:n]] *)
Fixpoint str_take (n : nat) (s : string) : string :=
  match n, s with
  | S n', String c t => String c (str_take n' t)
  | _, _ => EmptyString
  end.

(** ** Built-in operations on dynamically typed values *)

(** Lookup in a [dict] held in insertion order (keys are unique in a real
    [dict]; the first entry answers). *)
Fixpoint dict_lookup (d : list (string * pyval)) (k : string) : option pyval :=
  match d with
  | [] => None
  | (k', v) :: rest => if String.eqb k' k then Some v else dict_lookup rest k
  end.

(** [v.get(k, dflt)]: only a [dict] has the method. *)
Definition py_get (v : pyval) (k : string) (dflt : pyval) : result pyval :=
  match v with
  | PDict d => Ok (default dflt (dict_lookup d k))
  | _ => Raise AttributeError
  end.

(** [len(v)] *)
Definition py_len (v : pyval) : result nat :=
  match v with
  | PStr s => Ok (String.length s)
  | PList l => Ok (List.length l)
  | PDict d => Ok (List.length d)
  | _ => Raise TypeError
  end.

(** [v[:n]]: strings and lists slice; a [dict] refuses the slice as a key
    ([TypeError] before Python 3.12, [KeyError] since). *)
Definition py_slice_to (n : nat) (v : pyval) : result pyval :=
  match v with
  | PStr s => Ok (PStr (str_take n s))
  | PList l => Ok (PList (firstn n l))
  | PDict _ => Raise KeyError
  | _ => Raise TypeError
  end.

(** [k in v] for a string [k]: a key of a [dict], an element of a [list],
    a substring of a [str]. *)
Definition py_in (k : string) (v : pyval) : result bool :=
  match v with
  | PDict d => Ok (bool_decide (is_Some (dict_lookup d k)))
  | PList l => Ok (bool_decide (PStr k ∈ l))
  | PStr s => Ok (contains k s)
  | _ => Raise TypeError
  end.

(** [v[k]] for a string [k] *)
Definition py_getitem (v : pyval) (k : string) : result pyval :=
  match v with
  | PDict d =>
      match dict_lookup d k with
      | Some x => Ok x
      | None => Raise KeyError
      end
  | _ => Raise TypeError
  end.

(** ** UUIDs *)

Definition hex_digit (n : N) : ascii :=
  nth (N.to_nat n) (list_ascii_of_string "0123456789abcdef") "0"%char.

(** The [k] lowest hexadecimal digits of [n], most significant first:
    ['%0kx' % n] for [n < 16^k]. *)
Fixpoint hex (k : nat) (n : N) : string :=
  match k with
  | O => EmptyString
  | S k' => hex k' (N.shiftr n 4) +:+ String (hex_digit (N.land n 15)) EmptyString
  end.

(** [str(u)] for a UUID whose 128-bit integer is [u]: the 32 digits in
    groups of 8-4-4-4-12. *)
Definition uuid_str (u : N) : string :=
  let h := hex 32 u in
  substring 0 8 h +:+ "-" +:+ substring 8 4 h +:+ "-" +:+ substring 12 4 h +:+ "-"
    +:+ substring 16 4 h +:+ "-" +:+ substring 20 12 h.

End Py.
Export Py.

(* ================================================================== *)
(** * The runtime library the handlers call *)

(** [json.loads], [json.dumps], [base64.b64decode], [bytes.decode('utf-8')]
    and the text an f-string gives a value that is not a [str] (its
    [repr]).  Bytes are characters with the same code. *)
Class PyLib : Type := {
  json_loads : string -> result pyval;
  json_dumps : pyval -> string;
  b64decode : string -> result string;
  utf8_decode : string -> result string;
  py_repr : pyval -> string
}.

(** [f"{v}"] *)
Definition py_format `{PyLib} (v : pyval) : string :=
  match v with
  | PStr s => s
  | _ => py_repr v
  end.

(* ================================================================== *)
(** * src/ingest.py *)

Module ingest.

(** The gateway's event: [None] is a key the event does not have. *)
Record event : Type := {
  ev_headers : option (list (string * string));
  ev_body : option string;
  ev_isBase64Encoded : option bool
}.

(** The handler's answer, [{"statusCode": ..., "body": ...}]. *)
Record response : Type := {
  statusCode : Z;
  response_body : string
}.

(** One [send_message] request that the queue took. *)
Record sqs_message : Type := {
  QueueUrl : string;
  MessageBody : string
}.

(** The queue as the handler sees it: the messages it holds and the number
    of [send_message] calls made so far. *)
Record sqs : Type := {
  sqs_queue : list sqs_message;
  sqs_calls : nat
}.

(** What the surroundings decide for one invocation: the configured queue,
    the integer of the UUID that [uuid.uuid4()] draws, and for the n-th
    [send_message] call whether it raises. *)
Record env : Type := {
  QUEUE_URL : string;
  uuid4 : N;
  sqs_fault : nat -> option exn
}.

(** Where a statement leaves control: at the next statement, at a [return],
    or in a raised exception. *)
Inductive flow (A : Type) : Type :=
| Next (a : A)
| Return (r : response)
| Throw (e : exn).
Arguments Next {A} a.
Arguments Return {A} r.
Arguments Throw {A} e.

Definition M (A : Type) : Type := sqs -> flow A * sqs.

Definition ret {A} (a : A) : M A := fun q => (Next a, q).

Definition bind {A B} (m : M A) (k : A -> M B) : M B :=
  fun q =>
    match m q with
    | (Next a, q') => k a q'
    | (Return r, q') => (Return r, q')
    | (Throw e, q') => (Throw e, q')
    end.

Definition return_ {A} (r : response) : M A := fun q => (Return r, q).

Definition lift {A} (r : result A) : M A :=
  fun q =>
    match r with
    | Ok a => (Next a, q)
    | Raise e => (Throw e, q)
    end.

Notation "'let*' x ':=' m 'in' k" := (bind m (fun x => k))
  (at level 10, x pattern, m at level 100, k at level 200, only parsing).

(** [try: block except json.JSONDecodeError: handler] *)
Definition try_except_JSONDecodeError {A} (block handler : M A) : M A :=
  fun q =>
    match block q with
    | (Throw JSONDecodeError, q') => handler q'
    | other => other
    end.

(** [try: block except Exception as e: return handler(e)] around a block
    that ends in [return]. *)
Definition try_except_Exception (block : M Empty_set) (handler : exn -> response)
  : sqs -> response * sqs :=
  fun q =>
    match block q with
    | (Next impossible, _) => match impossible with end
    | (Return r, q') => (r, q')
    | (Throw e, q') => (handler e, q')
    end.

(** [sqs.send_message(QueueUrl=url, MessageBody=text)] *)
Definition send_message (E : env) (url text : string) : M unit :=
  fun q =>
    match sqs_fault E (sqs_calls q) with
    | Some e => (Throw e, {| sqs_queue := sqs_queue q; sqs_calls := S (sqs_calls q) |})
    | None =>
        (Next tt,
         {| sqs_queue := sqs_queue q ++ [{| QueueUrl := url; MessageBody := text |}];
            sqs_calls := S (sqs_calls q) |})
    end.

(** [{k.lower(): v for k, v in items}]: a later item overwrites an earlier
    one with the same lowered key. *)
Definition lower_keys (items : list (string * string)) : gmap string string :=
  foldl (fun m kv => <[lower (fst kv) := snd kv]> m) ∅ items.

Section Handler.
Context {lib : PyLib}.

(** The message of step 4. *)
Definition message (tenant_id log_id payload_text : pyval) (source_type : string) : pyval :=
  PDict [("tenant_id", tenant_id); ("log_id", log_id);
         ("original_text", payload_text); ("source", PStr source_type)].

(** Scenario 1, lines 28-37. *)
Definition json_scenario (body : string) (log_id : pyval)
  : M (pyval * pyval * string * pyval) :=
  let source_type := "json_upload" in
  try_except_JSONDecodeError
    (let* data := lift (json_loads body) in
     let* tenant_id := lift (py_get data "tenant_id" (PStr "unknown")) in
     let* payload_text := lift (py_get data "text" (PStr "")) in
     let* has_log_id := lift (py_in "log_id" data) in
     let* log_id := (if has_log_id : bool then lift (py_getitem data "log_id") else ret log_id) in
     ret (tenant_id, payload_text, source_type, log_id))
    (return_ {| statusCode := 400; response_body := "Invalid JSON" |}).

(** Scenario 2, lines 40-43. *)
Definition text_scenario (headers : gmap string string) (body : string) (log_id : pyval)
  : M (pyval * pyval * string * pyval) :=
  let source_type := "text_upload" in
  let tenant_id := default "unknown" (headers !! "x-tenant-id") in
  let payload_text := body in
  ret (PStr tenant_id, PStr payload_text, source_type, log_id).

(** Step 2: the body, decoded when the event flags it as base64. *)
Definition handle_body (event : event) : M string :=
  let body := default "" (ev_body event) in
  if default false (ev_isBase64Encoded event)
  then let* bytes := lift (b64decode body) in lift (utf8_decode bytes)
  else ret body.

(** The envelope's fields as step 3 leaves them:
    [(tenant_id, payload_text, source_type, log_id)]. *)
Definition fields : Type := pyval * pyval * string * pyval.

(** Steps 1 to 3, lines 13-46: the fields, or the way out through a
    [return] or an exception.  The defaults lines 16-18 give [tenant_id],
    [payload_text] and [source_type] are overwritten in each scenario
    before they are read. *)
Definition normalize (E : env) (event : event) : M fields :=
  (* 1. Parse Headers (Normalize case sensitivity) *)
  let headers := lower_keys (default [] (ev_headers event)) in
  let content_type := default "" (headers !! "content-type") in
  let log_id := PStr (uuid_str (uuid4 E)) in
  (* 2. Handle Body (Decode if base64) *)
  let* body := handle_body event in
  (* 3. Scenario Logic *)
  if contains "application/json" content_type then json_scenario body log_id
  else if contains "text/plain" content_type then text_scenario headers body log_id
  else return_ {| statusCode := 400; response_body := "Unsupported Content-Type" |}.

(** Steps 4 and 5, lines 48-65: build the message, push it to the queue,
    answer 202. *)
Definition handoff (E : env) (f : fields) : M Empty_set :=
  let '(tenant_id, payload_text, source_type, log_id) := f in
  (* 4. Construct Normalized Message *)
  let message := message tenant_id log_id payload_text source_type in
  (* 5. Push to Queue (Async Handoff) *)
  let* _ := send_message E (QUEUE_URL E) (json_dumps message) in
  return_ {| statusCode := 202;
             response_body :=
               json_dumps (PDict [("status", PStr "accepted"); ("id", log_id)]) |}.

Definition lambda_handler (E : env) (event : event) : sqs -> response * sqs :=
  try_except_Exception
    (let* f := normalize E event in handoff E f)
    (fun e => {| statusCode := 500; response_body := "Internal Server Error" |}).

(** ** The module's top level and the invocations that follow it *)

(** Lines 7-8, run once when the module is imported:
    [QUEUE_URL = os.environ['QUEUE_URL']], which raises when the variable
    is not set. *)
Definition load_module (environ : gmap string string) : result string :=
  match environ !! "QUEUE_URL" with
  | Some url => Ok url
  | None => Raise KeyError
  end.

(** What one invocation brings: the UUID drawn, the behaviour of the
    queue, and the event. *)
Record invocation : Type := {
  inv_uuid4 : N;
  inv_sqs_fault : nat -> option exn;
  inv_event : event
}.

(** The handler called once per event, in turn, on the same queue and with
    the URL the import read. *)
Fixpoint serve (url : string) (invs : list invocation) (q : sqs) : list response * sqs :=
  match invs with
  | [] => ([], q)
  | i :: rest =>
      let '(r, q1) :=
        lambda_handler
          {| QUEUE_URL := url; uuid4 := inv_uuid4 i; sqs_fault := inv_sqs_fault i |}
          (inv_event i) q in
      let '(rs, q2) := serve url rest q1 in
      (r :: rs, q2)
  end.

(** The import, then the invocations; a failed import serves nothing. *)
Definition container (environ : gmap string string) (invs : list invocation) (q : sqs)
  : result (list response * sqs) :=
  rbind (load_module environ) (fun url => Ok (serve url invs q)).

End Handler.

End ingest.

(* ================================================================== *)
(** * src/worker.py *)

Module worker.

(** ** Python floats: IEEE 754 binary64, round to nearest even *)

Definition prec : Z := 53.
Definition emax : Z := 1024.

(** [float(n)] *)
Definition float_of_int (n : Z) : spec_float := binary_normalize prec emax n 0 false.

(** [x * y], [x < y] and [x <= y] on floats *)
Definition fmul : spec_float -> spec_float -> spec_float := SFmul prec emax.
Definition fltb : spec_float -> spec_float -> bool := SFltb.

(** The literal [0.05]: the double nearest to 1/20, 7205759403792794 * 2^-57. *)
Definition f0_05 : spec_float := S754_finite false 7205759403792794 (-57).

(** The literal [800], as the float it is compared and slept as. *)
Definition f800 : spec_float := S754_finite false 7036874417766400 (-43).

(** ** The batch and the world *)

(** One delivered message of [event['Records']]. *)
Record record : Type := {
  messageId : string;
  body : string
}.

Record event : Type := {
  Records : list record
}.

(** The [item] dictionary of step 3. *)
Record item : Type := {
  tenant_id : pyval;
  log_id : pyval;
  source : pyval;
  original_text : pyval;
  modified_data : string;
  processed_at : string
}.

(** Modelled from the spec: the table's key schema is declared outside
    [src/]; sections 3 and 6 key a ProcessedRecord by [(tenant_id, log_id)]
    and give the write overwrite semantics. *)
Definition item_key (it : item) : pyval * pyval := (tenant_id it, log_id it).

(** The table, the items written to it in order, and the durations
    [time.sleep] was called with, in order. *)
Record world : Type := {
  table : gmap (pyval * pyval) item;
  written : list item;
  slept : list spec_float
}.

(** What the surroundings decide while the i-th record of a batch is
    processed: the text of [datetime.utcnow().isoformat()], and whether
    [put_item] raises. *)
Record env : Type := {
  utcnow_isoformat : nat -> string;
  put_fault : nat -> option exn
}.

Definition M (A : Type) : Type := world -> result A * world.

Definition ret {A} (a : A) : M A := fun w => (Ok a, w).

Definition bind {A B} (m : M A) (k : A -> M B) : M B :=
  fun w =>
    match m w with
    | (Ok a, w') => k a w'
    | (Raise e, w') => (Raise e, w')
    end.

Definition lift {A} (r : result A) : M A := fun w => (r, w).

Notation "'let*' x ':=' m 'in' k" := (bind m (fun x => k))
  (at level 10, x pattern, m at level 100, k at level 200, only parsing).

(** [time.sleep(d)] *)
Definition time_sleep (d : spec_float) : M unit :=
  fun w => (Ok tt, {| table := table w; written := written w; slept := slept w ++ [d] |}).

(** [table.put_item(Item=it)] while the i-th record is processed. *)
Definition put_item (E : env) (i : nat) (it : item) : M unit :=
  fun w =>
    match put_fault E i with
    | Some e => (Raise e, w)
    | None =>
        (Ok tt,
         {| table := <[item_key it := it]> (table w);
            written := written w ++ [it];
            slept := slept w |})
    end.

(** Step 2: [len(text) * 0.05], capped at 800. *)
Definition cost (n : nat) : spec_float := fmul (float_of_int (Z.of_nat n)) f0_05.

Definition capped (sleep_time : spec_float) : spec_float :=
  if fltb f800 sleep_time then f800 else sleep_time.

Section Handler.
Context {lib : PyLib}.

(** The body of the [try] for the i-th record, lines 17-46. *)
Definition process_record (E : env) (i : nat) (record : record) : M unit :=
  (* 1. Parse Message *)
  let* body := lift (json_loads (body record)) in
  let* tenant_id := lift (py_get body "tenant_id" PNone) in
  let* log_id := lift (py_get body "log_id" PNone) in
  let* text := lift (py_get body "original_text" (PStr "")) in
  (* 2. Simulate Heavy Processing *)
  let* n := lift (py_len text) in
  let sleep_time := capped (cost n) in
  let* _ := time_sleep sleep_time in
  (* 3. Save to NoSQL *)
  let* source := lift (py_get body "source" PNone) in
  let* preview := lift (py_slice_to 10 text) in
  let item :=
    {| tenant_id := tenant_id;
       log_id := log_id;
       source := source;
       original_text := text;
       modified_data := py_format preview +:+ "... [REDACTED]";
       processed_at := utcnow_isoformat E i |} in
  put_item E i item.

(** The [for] loop from its i-th record on: a record whose [try] raises
    adds its [messageId] to the failures, and the loop goes on. *)
Fixpoint for_records (E : env) (i : nat) (records : list record)
    (batch_item_failures : list string) (w : world) : list string * world :=
  match records with
  | [] => (batch_item_failures, w)
  | record :: rest =>
      match process_record E i record w with
      | (Ok _, w') => for_records E (S i) rest batch_item_failures w'
      | (Raise _, w') =>
          for_records E (S i) rest (batch_item_failures ++ [messageId record]) w'
      end
  end.

(** The handler; its answer [{"batchItemFailures": [{"itemIdentifier": id},
    ...]}] is the list of the identifiers. *)
Definition lambda_handler (E : env) (event : event) (w : world) : list string * world :=
  for_records E 0 (Records event) [] w.

(** ** The module's top level and the invocations that follow it *)

(** Lines 7-9, run once when the module is imported: the table is the one
    [os.environ['TABLE_NAME']] names, and the lookup raises when the
    variable is not set. *)
Definition load_module (environ : gmap string string) : result string :=
  match environ !! "TABLE_NAME" with
  | Some name => Ok name
  | None => Raise KeyError
  end.

(** What one invocation brings: its surroundings and its batch. *)
Record invocation : Type := {
  inv_env : env;
  inv_event : event
}.

(** The handler called once per batch, in turn, on the same table. *)
Fixpoint serve (invs : list invocation) (w : world) : list (list string) * world :=
  match invs with
  | [] => ([], w)
  | i :: rest =>
      let '(failures, w1) := lambda_handler (inv_env i) (inv_event i) w in
      let '(answers, w2) := serve rest w1 in
      (failures :: answers, w2)
  end.

(** The import, then the invocations; a failed import handles nothing. *)
Definition container (environ : gmap string string) (invs : list invocation) (w : world)
  : result (list (list string) * world) :=
  rbind (load_module environ) (fun _ => Ok (serve invs w)).

End Handler.

End worker.

(* ================================================================== *)
(** * A reference runtime library

    An executable [PyLib], written after CPython's [json], [base64],
    [bytes.decode] and [repr], to run the handlers on concrete events.  Text
    beyond U+00FF has no character here: where Python would build it (a
    multi-byte UTF-8 sequence, a [\u] escape) the reference raises.  The
    interpreter's limits on nesting depth and on the length of an integer
    literal are not modelled. *)

Module Ref.

Definition ord (c : ascii) : nat := nat_of_ascii c.
Definition chr (n : nat) : ascii := ascii_of_nat n.

Definition between (lo hi n : nat) : bool := ((lo <=? n) && (n <=? hi))%nat.

Definition is_digit (c : ascii) : bool := between 48 57 (ord c).

Definition digit_value (c : ascii) : Z := Z.of_nat (ord c - 48).

(** [sep.join(parts)] *)
Fixpoint join (sep : string) (parts : list string) : string :=
  match parts with
  | [] => EmptyString
  | [p] => p
  | p :: rest => p +:+ sep +:+ join sep rest
  end.

(** Decimal text of an integer. *)
Fixpoint pos_digits (fuel : nat) (n : Z) (acc : string) : string :=
  match fuel with
  | O => acc
  | S fuel' =>
      let acc' := String (chr (48 + Z.to_nat (n mod 10))) acc in
      if (n <? 10)%Z then acc' else pos_digits fuel' (n / 10) acc'
  end.

Definition str_of_Z (n : Z) : string :=
  let a := Z.abs n in
  let digits := pos_digits (S (Z.to_nat (Z.log2 a))) a EmptyString in
  if (n <? 0)%Z then String "-" digits else digits.

(** ** base64.b64decode(s) followed by bytes.decode('utf-8') *)

Definition b64_value (c : ascii) : option N :=
  let n := ord c in
  if between 65 90 n then Some (N.of_nat (n - 65))
  else if between 97 122 n then Some (N.of_nat (n - 71))
  else if between 48 57 n then Some (N.of_nat (n + 4))
  else if (n =? 43)%nat then Some 62%N
  else if (n =? 47)%nat then Some 63%N
  else None.

Definition byte_of (n : N) : string :=
  String (ascii_of_N (N.land n 255)) EmptyString.

(** [binascii.a2b_base64] in its lenient mode: characters outside the
    alphabet are skipped, a complete pad sequence ends the input, and a
    quad left incomplete at the end is an error. *)
Fixpoint a2b_base64 (s : string) (quad_pos : nat) (leftchar : N) (pads : nat)
    (out : string) : result string :=
  match s with
  | EmptyString => if (quad_pos =? 0)%nat then Ok out else Raise BinasciiError
  | String c rest =>
      if (ord c =? 61)%nat then
        if (2 <=? quad_pos)%nat then
          if (4 <=? quad_pos + S pads)%nat then Ok out
          else a2b_base64 rest quad_pos leftchar (S pads) out
        else a2b_base64 rest quad_pos leftchar pads out
      else
        match b64_value c with
        | None => a2b_base64 rest quad_pos leftchar pads out
        | Some v =>
            match quad_pos with
            | 0 => a2b_base64 rest 1 v 0 out
            | 1 =>
                a2b_base64 rest 2 (N.land v 15) 0
                  (out +:+ byte_of (N.lor (N.shiftl leftchar 2) (N.shiftr v 4)))
            | 2 =>
                a2b_base64 rest 3 (N.land v 3) 0
                  (out +:+ byte_of (N.lor (N.shiftl leftchar 4) (N.shiftr v 2)))
            | _ =>
                a2b_base64 rest 0 0 0
                  (out +:+ byte_of (N.lor (N.shiftl leftchar 6) v))
            end
        end
  end.

Fixpoint is_ascii (s : string) : bool :=
  match s with
  | EmptyString => true
  | String c rest => (ord c <? 128)%nat && is_ascii rest
  end.

(** [base64.b64decode(s)] for a [str]: it must be ASCII. *)
Definition b64decode (s : string) : result string :=
  if is_ascii s then a2b_base64 s 0 0 0 EmptyString else Raise ValueError.

(** [bytes.decode('utf-8')] up to U+00FF: one byte below 0x80, or 0xC2 or
    0xC3 and one continuation byte. *)
Fixpoint utf8_decode (b : string) : result string :=
  match b with
  | EmptyString => Ok EmptyString
  | String c rest =>
      let n := ord c in
      if (n <? 128)%nat then rbind (utf8_decode rest) (fun t => Ok (String c t))
      else if between 194 195 n then
        match rest with
        | String c2 rest2 =>
            if between 128 191 (ord c2)
            then rbind (utf8_decode rest2)
                   (fun t => Ok (String (chr ((n - 192) * 64 + (ord c2 - 128))) t))
            else Raise UnicodeDecodeError
        | EmptyString => Raise UnicodeDecodeError
        end
      else Raise UnicodeDecodeError
  end.

(** ** Floats and decimal text *)

(** The double nearest to [d * 10^k] for [d > 0], with the sign [neg]: what
    [float] makes of a decimal literal. *)
Definition float_of_decimal (neg : bool) (d k : Z) : spec_float :=
  if (d <=? 0)%Z then S754_zero neg
  else if (0 <=? k)%Z then
    binary_normalize worker.prec worker.emax
      (if neg then - (d * 10 ^ k) else d * 10 ^ k)%Z 0 false
  else
    let '(mz, ez, lz) :=
      SFdiv_core_binary worker.prec worker.emax d 0 (10 ^ (- k))%Z 0 in
    binary_round_aux worker.prec worker.emax neg mz ez lz.

(** [x = m * 2^e] compared with [c * 10^q], all exact. *)
Definition cmp_scaled (m e c q : Z) : comparison :=
  let lhs := (m * 2 ^ (Z.max e 0) * 10 ^ (Z.max (- q) 0))%Z in
  let rhs := (c * 10 ^ (Z.max q 0) * 2 ^ (Z.max (- e) 0))%Z in
  (lhs ?= rhs)%Z.

(** The least [p] from [p0] on with [m * 2^e < 10^p]. *)
Fixpoint decimal_point (fuel : nat) (m e p : Z) : Z :=
  match fuel with
  | O => p
  | S fuel' =>
      match cmp_scaled m e 1 p with
      | Lt => p
      | _ => decimal_point fuel' m e (p + 1)%Z
      end
  end.

(** [floor (m * 2^e / 10^q)] *)
Definition scaled_floor (m e q : Z) : Z :=
  ((m * 2 ^ (Z.max e 0) * 10 ^ (Z.max (- q) 0))
     / (10 ^ (Z.max q 0) * 2 ^ (Z.max (- e) 0)))%Z.

(** The shortest decimal [c * 10^q] that reads back as [m * 2^e], the
    nearest one when two of that length do: tried with 1, 2, ... digits. *)
Fixpoint shortest (fuel : nat) (m e decpt n : Z) : Z * Z :=
  let q := (decpt - n)%Z in
  let lo := scaled_floor m e q in
  let hi := (lo + 1)%Z in
  let x := S754_finite false (Z.to_pos m) e in
  let ok c := bool_decide (float_of_decimal false c q = x) in
  match fuel with
  | O => (lo, q)
  | S fuel' =>
      match ok lo, ok hi with
      | true, false => (lo, q)
      | false, true => (hi, q)
      | true, true =>
          match cmp_scaled (2 * m) e (lo + hi) q with
          | Lt => (lo, q)
          | Gt => (hi, q)
          | Eq => if Z.even lo then (lo, q) else (hi, q)
          end
      | false, false => shortest fuel' m e decpt (n + 1)%Z
      end
  end.

Fixpoint strip_zeros (fuel : nat) (c q : Z) : Z * Z :=
  match fuel with
  | O => (c, q)
  | S fuel' =>
      if ((c mod 10 =? 0) && negb (c =? 0))%Z
      then strip_zeros fuel' (c / 10)%Z (q + 1)%Z
      else (c, q)
  end.

Fixpoint zeros (n : nat) : string :=
  match n with
  | O => EmptyString
  | S n' => String "0" (zeros n')
  end.

(** [repr] of a positive finite float: the shortest digits, in positional
    notation while the decimal point falls within -4 < decpt <= 16, with an
    exponent otherwise. *)
Definition repr_finite (m : positive) (e : Z) : string :=
  let decpt0 := decimal_point 700 (Zpos m) e (-330) in
  let '(c0, q0) := shortest 17 (Zpos m) e decpt0 1 in
  let '(c, q) := strip_zeros 20 c0 q0 in
  let digits := str_of_Z c in
  let nd := Z.of_nat (String.length digits) in
  let decpt := (q + nd)%Z in
  if ((-4 <? decpt) && (decpt <=? 16))%Z then
    if (decpt <=? 0)%Z then "0." +:+ zeros (Z.to_nat (- decpt)) +:+ digits
    else if (nd <=? decpt)%Z then digits +:+ zeros (Z.to_nat (decpt - nd)) +:+ ".0"
    else substring 0 (Z.to_nat decpt) digits +:+ "."
           +:+ substring (Z.to_nat decpt) (Z.to_nat (nd - decpt)) digits
  else
    let ex := (decpt - 1)%Z in
    let mant :=
      if (nd =? 1)%Z then digits
      else substring 0 1 digits +:+ "." +:+ substring 1 (Z.to_nat (nd - 1)) digits in
    let ex_digits := str_of_Z (Z.abs ex) in
    mant +:+ "e" +:+ (if (ex <? 0)%Z then "-" else "+")
         +:+ (if (Z.abs ex <? 10)%Z then "0" else EmptyString) +:+ ex_digits.

(** [repr(f)]; [json.dumps] writes the three special values its own way. *)
Definition float_text (nan inf : string) (f : spec_float) : string :=
  match f with
  | S754_nan => nan
  | S754_infinity s => if s then "-" +:+ inf else inf
  | S754_zero s => if s then "-0.0" else "0.0"
  | S754_finite s m e => (if s then "-" else EmptyString) +:+ repr_finite m e
  end.

(** ** json.loads *)

Definition is_ws (c : ascii) : bool :=
  let n := ord c in
  ((n =? 32) || (n =? 9) || (n =? 10) || (n =? 13))%nat.

Fixpoint skip_ws (s : string) : string :=
  match s with
  | String c rest => if is_ws c then skip_ws rest else s
  | EmptyString => s
  end.

(** The text after a first character with code [n]. *)
Definition after (n : nat) (s : string) : option string :=
  match s with
  | String c rest => if (ord c =? n)%nat then Some rest else None
  | EmptyString => None
  end.

(** The text after the prefix [p]. *)
Fixpoint after_prefix (p s : string) : option string :=
  match p, s with
  | EmptyString, _ => Some s
  | String a p', String b s' => if Ascii.eqb a b then after_prefix p' s' else None
  | _, _ => None
  end.

Definition hex_value (c : ascii) : option nat :=
  let n := ord c in
  if between 48 57 n then Some (n - 48)
  else if between 97 102 n then Some (n - 87)
  else if between 65 70 n then Some (n - 55)
  else None.

Definition hex4 (a b c d : ascii) : option nat :=
  match hex_value a, hex_value b, hex_value c, hex_value d with
  | Some x, Some y, Some z, Some w => Some (((x * 16 + y) * 16 + z) * 16 + w)
  | _, _, _, _ => None
  end.

(** What a backslash and the character [e] stand for. *)
Definition unescape (e : ascii) : option ascii :=
  let n := ord e in
  if (n =? 34)%nat then Some (chr 34)
  else if (n =? 92)%nat then Some (chr 92)
  else if (n =? 47)%nat then Some (chr 47)
  else if (n =? 98)%nat then Some (chr 8)
  else if (n =? 102)%nat then Some (chr 12)
  else if (n =? 110)%nat then Some (chr 10)
  else if (n =? 114)%nat then Some (chr 13)
  else if (n =? 116)%nat then Some (chr 9)
  else None.

Definition cons_char (c : ascii) (r : option (string * string)) : option (string * string) :=
  match r with
  | Some (t, rest) => Some (String c t, rest)
  | None => None
  end.

(** A string literal from just after its opening quote: the text and what
    follows the closing quote.  Control characters must be escaped. *)
Fixpoint scan_string (s : string) : option (string * string) :=
  match s with
  | EmptyString => None
  | String c rest =>
      let n := ord c in
      if (n =? 34)%nat then Some (EmptyString, rest)
      else if (n <? 32)%nat then None
      else if (n =? 92)%nat then
        match rest with
        | String e rest1 =>
            if (ord e =? 117)%nat then
              match rest1 with
              | String h1 (String h2 (String h3 (String h4 rest2))) =>
                  match hex4 h1 h2 h3 h4 with
                  | Some code =>
                      if (code <? 256)%nat then cons_char (chr code) (scan_string rest2)
                      else None
                  | None => None
                  end
              | _ => None
              end
            else
              match unescape e with
              | Some ch => cons_char ch (scan_string rest1)
              | None => None
              end
        | EmptyString => None
        end
      else cons_char c (scan_string rest)
  end.

(** The digits at the head of [s]: their value after [acc], how many, and
    the rest. *)
Fixpoint take_digits (s : string) (acc : Z) (count : nat) : Z * nat * string :=
  match s with
  | String c rest =>
      if is_digit c then take_digits rest (acc * 10 + digit_value c)%Z (S count)
      else (acc, count, s)
  | EmptyString => (acc, count, s)
  end.

(** A number: an optional minus sign, then 0 or digits not starting with 0,
    then optionally a point with digits, then optionally e or E with a
    signed run of digits; an [int] without fraction and exponent and a
    [float] otherwise. *)
Definition parse_number (s : string) : option (pyval * string) :=
  let '(neg, s1) :=
    match after 45 s with
    | Some r => (true, r)
    | None => (false, s)
    end in
  match s1 with
  | EmptyString => None
  | String c r =>
      if negb (is_digit c) then None
      else
        let '(ip, _, s2) :=
          if (ord c =? 48)%nat then (0%Z, 1%nat, r) else take_digits s1 0 0 in
        let '(mant, fcount, s3) :=
          match after 46 s2 with
          | Some (String d _ as r2) =>
              if is_digit d then take_digits r2 ip 0 else (ip, 0%nat, s2)
          | _ => (ip, 0%nat, s2)
          end in
        let has_frac := negb (fcount =? 0)%nat in
        let exponent :=
          match s3 with
          | String e r3 =>
              if ((ord e =? 101) || (ord e =? 69))%nat then
                let '(eneg, r4) :=
                  match r3 with
                  | String sg r' =>
                      if (ord sg =? 45)%nat then (true, r')
                      else if (ord sg =? 43)%nat then (false, r')
                      else (false, r3)
                  | EmptyString => (false, r3)
                  end in
                match r4 with
                | String d _ =>
                    if is_digit d then
                      let '(ev, _, r5) := take_digits r4 0 0 in
                      Some ((if eneg then - ev else ev)%Z, r5)
                    else None
                | EmptyString => None
                end
              else None
          | EmptyString => None
          end in
        match exponent with
        | Some (ev, s4) =>
            Some (PFloat (float_of_decimal neg mant (ev - Z.of_nat fcount)), s4)
        | None =>
            if has_frac
            then Some (PFloat (float_of_decimal neg mant (- Z.of_nat fcount)), s3)
            else Some (PInt (if neg then - ip else ip)%Z, s3)
        end
  end.

(** [d[k] = v] *)
Fixpoint dict_set (d : list (string * pyval)) (k : string) (v : pyval)
  : list (string * pyval) :=
  match d with
  | [] => [(k, v)]
  | (k', v') :: rest =>
      if String.eqb k' k then (k, v) :: rest else (k', v') :: dict_set rest k v
  end.

Definition keyword (s : string) : option (pyval * string) :=
  match after_prefix "null" s with
  | Some r => Some (PNone, r)
  | None =>
  match after_prefix "true" s with
  | Some r => Some (PBool true, r)
  | None =>
  match after_prefix "false" s with
  | Some r => Some (PBool false, r)
  | None =>
  match parse_number s with
  | Some out => Some out
  | None =>
  match after_prefix "NaN" s with
  | Some r => Some (PFloat S754_nan, r)
  | None =>
  match after_prefix "Infinity" s with
  | Some r => Some (PFloat (S754_infinity false), r)
  | None =>
  match after_prefix "-Infinity" s with
  | Some r => Some (PFloat (S754_infinity true), r)
  | None => None
  end end end end end end end.

(** One value at the head of [s]; the elements of an array after its
    bracket; the members of an object from a key on. *)
Fixpoint parse_value (fuel : nat) (s : string) {struct fuel} : option (pyval * string) :=
  match fuel with
  | O => None
  | S fuel' =>
      match s with
      | EmptyString => None
      | String c rest =>
          let n := ord c in
          if (n =? 34)%nat then
            match scan_string rest with
            | Some (t, r) => Some (PStr t, r)
            | None => None
            end
          else if (n =? 123)%nat then
            let r := skip_ws rest in
            match after 125 r with
            | Some r' => Some (PDict [], r')
            | None => parse_members fuel' r []
            end
          else if (n =? 91)%nat then
            let r := skip_ws rest in
            match after 93 r with
            | Some r' => Some (PList [], r')
            | None => parse_elements fuel' r []
            end
          else keyword s
      end
  end
with parse_elements (fuel : nat) (s : string) (acc : list pyval) {struct fuel}
  : option (pyval * string) :=
  match fuel with
  | O => None
  | S fuel' =>
      match parse_value fuel' s with
      | None => None
      | Some (v, r) =>
          let r1 := skip_ws r in
          match after 93 r1 with
          | Some r2 => Some (PList (acc ++ [v]), r2)
          | None =>
              match after 44 r1 with
              | Some r2 => parse_elements fuel' (skip_ws r2) (acc ++ [v])
              | None => None
              end
          end
      end
  end
with parse_members (fuel : nat) (s : string) (acc : list (string * pyval)) {struct fuel}
  : option (pyval * string) :=
  match fuel with
  | O => None
  | S fuel' =>
      match after 34 s with
      | None => None
      | Some r =>
          match scan_string r with
          | None => None
          | Some (k, r1) =>
              match after 58 (skip_ws r1) with
              | None => None
              | Some r2 =>
                  match parse_value fuel' (skip_ws r2) with
                  | None => None
                  | Some (v, r3) =>
                      let r4 := skip_ws r3 in
                      match after 125 r4 with
                      | Some r5 => Some (PDict (dict_set acc k v), r5)
                      | None =>
                          match after 44 r4 with
                          | Some r5 => parse_members fuel' (skip_ws r5) (dict_set acc k v)
                          | None => None
                          end
                      end
                  end
              end
          end
      end
  end.

(** [json.loads(s)]: one value between optional white space. *)
Definition json_loads (s : string) : result pyval :=
  match parse_value (2 * String.length s + 2) (skip_ws s) with
  | Some (v, rest) =>
      match skip_ws rest with
      | EmptyString => Ok v
      | _ => Raise JSONDecodeError
      end
  | None => Raise JSONDecodeError
  end.

(** ** json.dumps and repr *)

Definition hex2 (n : nat) : string :=
  String (hex_digit (N.of_nat (n / 16))) (String (hex_digit (N.of_nat (n mod 16))) EmptyString).

(** One character inside a JSON string: everything outside [' '..'~'] is
    escaped. *)
Definition json_escape_char (c : ascii) : string :=
  let n := ord c in
  if (n =? 34)%nat then String (chr 92) (String (chr 34) EmptyString)
  else if (n =? 92)%nat then String (chr 92) (String (chr 92) EmptyString)
  else if (n =? 10)%nat then String (chr 92) "n"
  else if (n =? 13)%nat then String (chr 92) "r"
  else if (n =? 9)%nat then String (chr 92) "t"
  else if (n =? 8)%nat then String (chr 92) "b"
  else if (n =? 12)%nat then String (chr 92) "f"
  else if between 32 126 n then String c EmptyString
  else String (chr 92) ("u00" +:+ hex2 n).

Fixpoint json_escape (s : string) : string :=
  match s with
  | EmptyString => EmptyString
  | String c rest => json_escape_char c +:+ json_escape rest
  end.

Definition json_string (s : string) : string :=
  String (chr 34) (json_escape s) +:+ String (chr 34) EmptyString.

(** [json.dumps(v)] with the default separators. *)
Fixpoint json_dumps (v : pyval) : string :=
  match v with
  | PNone => "null"
  | PBool b => if b then "true" else "false"
  | PInt n => str_of_Z n
  | PFloat f => float_text "NaN" "Infinity" f
  | PStr s => json_string s
  | PList l => "[" +:+ join ", " (List.map json_dumps l) +:+ "]"
  | PDict d =>
      "{" +:+ join ", " (List.map (fun kv => json_string (fst kv) +:+ ": "
                                              +:+ json_dumps (snd kv)) d) +:+ "}"
  end.

Definition printable (n : nat) : bool :=
  between 32 126 n || (between 161 255 n && negb (n =? 173)%nat).

Definition repr_char (quote : nat) (c : ascii) : string :=
  let n := ord c in
  if ((n =? quote) || (n =? 92))%nat then String (chr 92) (String c EmptyString)
  else if (n =? 9)%nat then String (chr 92) "t"
  else if (n =? 10)%nat then String (chr 92) "n"
  else if (n =? 13)%nat then String (chr 92) "r"
  else if printable n then String c EmptyString
  else String (chr 92) ("x" +:+ hex2 n).

Fixpoint repr_chars (quote : nat) (s : string) : string :=
  match s with
  | EmptyString => EmptyString
  | String c rest => repr_char quote c +:+ repr_chars quote rest
  end.

Fixpoint has_char (n : nat) (s : string) : bool :=
  match s with
  | EmptyString => false
  | String c rest => (ord c =? n)%nat || has_char n rest
  end.

(** [repr(s)]: single quotes unless the text has one and no double quote. *)
Definition repr_str (s : string) : string :=
  let quote := if has_char 39 s && negb (has_char 34 s) then 34 else 39 in
  String (chr quote) (repr_chars quote s) +:+ String (chr quote) EmptyString.

(** [repr(v)] *)
Fixpoint py_repr (v : pyval) : string :=
  match v with
  | PNone => "None"
  | PBool b => if b then "True" else "False"
  | PInt n => str_of_Z n
  | PFloat f => float_text "nan" "inf" f
  | PStr s => repr_str s
  | PList l => "[" +:+ join ", " (List.map py_repr l) +:+ "]"
  | PDict d =>
      "{" +:+ join ", " (List.map (fun kv => repr_str (fst kv) +:+ ": "
                                              +:+ py_repr (snd kv)) d) +:+ "}"
  end.

End Ref.

#[export] Instance RefLib : PyLib := {|
  json_loads := Ref.json_loads;
  json_dumps := Ref.json_dumps;
  b64decode := Ref.b64decode;
  utf8_decode := Ref.utf8_decode;
  py_repr := Ref.py_repr
|}.

(* ================================================================== *)
(** * The vocabulary of the properties *)

Local Open Scope list_scope.

Section Vocabulary.
Context {lib : PyLib}.

(** ** The Ingest Normalizer *)

(** The value of the last header whose name, lowercased, is [name]: a
    lookup that does not see the caller's casing. *)
Fixpoint header_ci (name : string) (items : list (string * string)) : option string :=
  match items with
  | [] => None
  | (k, v) :: rest =>
      match header_ci name rest with
      | Some x => Some x
      | None => if String.eqb (lower k) name then Some v else None
      end
  end.

(** The headers of an event with every name lowercased. *)
Definition lowered (items : list (string * string)) : list (string * string) :=
  List.map (fun kv => (lower (fst kv), snd kv)) items.

(** The declared content type, [''] when no header declares one. *)
Definition content_type (ev : ingest.event) : string :=
  default "" (header_ci "content-type" (default [] (ingest.ev_headers ev))).

(** The tenant a plain-text submission names, ["unknown"] when none. *)
Definition header_tenant (ev : ingest.event) : string :=
  default "unknown" (header_ci "x-tenant-id" (default [] (ingest.ev_headers ev))).

Definition response_400_json : ingest.response :=
  {| ingest.statusCode := 400; ingest.response_body := "Invalid JSON" |}.

Definition response_400_type : ingest.response :=
  {| ingest.statusCode := 400; ingest.response_body := "Unsupported Content-Type" |}.

Definition response_500 : ingest.response :=
  {| ingest.statusCode := 500; ingest.response_body := "Internal Server Error" |}.

(** A status in the 400 class. *)
Definition client_error (r : ingest.response) : bool :=
  ((400 <=? ingest.statusCode r) && (ingest.statusCode r <? 500))%Z.

(** The body as text: decoded when flagged, as sent otherwise. *)
Definition body_text (ev : ingest.event) : result string :=
  let body := default "" (ingest.ev_body ev) in
  if default false (ingest.ev_isBase64Encoded ev)
  then rbind (b64decode body) utf8_decode
  else Ok body.

(** The accepted response for an envelope with this [log_id]. *)
Definition response_202 (log_id : pyval) : ingest.response :=
  {| ingest.statusCode := 202;
     ingest.response_body :=
       json_dumps (PDict [("status", PStr "accepted"); ("id", log_id)]) |}.

(** The queue message that carries an envelope. *)
Definition envelope_message (E : ingest.env) (f : ingest.fields) : ingest.sqs_message :=
  let '(tenant_id, payload_text, source_type, log_id) := f in
  {| ingest.QueueUrl := ingest.QUEUE_URL E;
     ingest.MessageBody :=
       json_dumps (ingest.message tenant_id log_id payload_text source_type) |}.

Definition log_id_of (f : ingest.fields) : pyval := snd f.

(** What scenario 1 makes of a body. *)
Definition json_fields (body : string) (fresh : pyval) : ingest.flow ingest.fields :=
  match json_loads body with
  | Raise JSONDecodeError => ingest.Return response_400_json
  | Raise e => ingest.Throw e
  | Ok (PDict d) =>
      ingest.Next (default (PStr "unknown") (dict_lookup d "tenant_id"),
                   default (PStr "") (dict_lookup d "text"),
                   "json_upload",
                   default fresh (dict_lookup d "log_id"))
  | Ok _ => ingest.Throw AttributeError
  end.

(** What steps 1 to 3 make of an event. *)
Definition normalized (E : ingest.env) (ev : ingest.event) : ingest.flow ingest.fields :=
  let fresh := PStr (uuid_str (ingest.uuid4 E)) in
  match body_text ev with
  | Raise e => ingest.Throw e
  | Ok body =>
      if contains "application/json" (content_type ev) then json_fields body fresh
      else if contains "text/plain" (content_type ev)
      then ingest.Next (PStr (header_tenant ev), PStr body, "text_upload", fresh)
      else ingest.Return response_400_type
  end.

(** The queue after a [send_message] call that was taken, and after one
    that raised. *)
Definition enqueued (q : ingest.sqs) (m : ingest.sqs_message) : ingest.sqs :=
  {| ingest.sqs_queue := ingest.sqs_queue q ++ [m];
     ingest.sqs_calls := S (ingest.sqs_calls q) |}.

Definition refused (q : ingest.sqs) : ingest.sqs :=
  {| ingest.sqs_queue := ingest.sqs_queue q;
     ingest.sqs_calls := S (ingest.sqs_calls q) |}.

(** The handler with steps 1 to 3 replaced by [path]. *)
Definition handler_along (E : ingest.env) (path : ingest.M ingest.fields)
  : ingest.sqs -> ingest.response * ingest.sqs :=
  ingest.try_except_Exception (ingest.bind path (ingest.handoff E)) (fun _ => response_500).

(** ** The Batch Processor *)

(** The payload of a parsed envelope, [''] when it has none. *)
Definition text_of (d : list (string * pyval)) : pyval :=
  default (PStr "") (dict_lookup d "original_text").

(** The item a parsed envelope gives, or the exception its payload
    raises in [len] or in the slice. *)
Definition build_item (E : worker.env) (i : nat) (d : list (string * pyval))
  : result worker.item :=
  let text := text_of d in
  rbind (py_len text) (fun _ =>
  rbind (py_slice_to 10 text) (fun preview =>
  Ok {| worker.tenant_id := default PNone (dict_lookup d "tenant_id");
        worker.log_id := default PNone (dict_lookup d "log_id");
        worker.source := default PNone (dict_lookup d "source");
        worker.original_text := text;
        worker.modified_data := py_format preview +:+ "... [REDACTED]";
        worker.processed_at := worker.utcnow_isoformat E i |})).

(** The item the i-th record gives when its body deserializes to an
    object and its payload can be processed. *)
Definition item_of (E : worker.env) (i : nat) (r : worker.record) : result worker.item :=
  match json_loads (worker.body r) with
  | Ok (PDict d) => build_item E i d
  | Ok _ => Raise AttributeError
  | Raise e => Raise e
  end.

(** The three ways a message can fail. *)
Definition deserialization_fails (r : worker.record) : bool :=
  match json_loads (worker.body r) with
  | Raise _ => true
  | Ok _ => false
  end.

Definition processing_fails (E : worker.env) (i : nat) (r : worker.record) : bool :=
  match json_loads (worker.body r), item_of E i r with
  | Ok _, Raise _ => true
  | _, _ => false
  end.

Definition store_write_fails (E : worker.env) (i : nat) (r : worker.record) : bool :=
  match item_of E i r, worker.put_fault E i with
  | Ok _, Some _ => true
  | _, _ => false
  end.

Definition record_fails (E : worker.env) (i : nat) (r : worker.record) : bool :=
  deserialization_fails r || processing_fails E i r || store_write_fails E i r.

(** The durations the processing of a record sleeps: one when the payload
    has a length, none when the message fails before. *)
Definition sleeps (r : worker.record) : list spec_float :=
  match json_loads (worker.body r) with
  | Ok (PDict d) =>
      match py_len (text_of d) with
      | Ok n => [worker.capped (worker.cost n)]
      | Raise _ => []
      end
  | _ => []
  end.

(** The world after a record: always its sleeps, and its item when the
    message succeeds. *)
Definition after_record (E : worker.env) (i : nat) (r : worker.record) (w : worker.world)
  : worker.world :=
  match item_of E i r, worker.put_fault E i with
  | Ok it, None =>
      {| worker.table := <[worker.item_key it := it]> (worker.table w);
         worker.written := worker.written w ++ [it];
         worker.slept := worker.slept w ++ sleeps r |}
  | _, _ =>
      {| worker.table := worker.table w;
         worker.written := worker.written w;
         worker.slept := worker.slept w ++ sleeps r |}
  end.

(** The identifiers of the failing records, from the i-th on, in order. *)
Fixpoint failed_from (E : worker.env) (i : nat) (rs : list worker.record) : list string :=
  match rs with
  | [] => []
  | r :: rest =>
      (if record_fails E i r then [worker.messageId r] else []) ++ failed_from E (S i) rest
  end.

(** The items of the records that succeed, from the i-th on, in order. *)
Fixpoint written_from (E : worker.env) (i : nat) (rs : list worker.record)
  : list worker.item :=
  match rs with
  | [] => []
  | r :: rest =>
      match item_of E i r, worker.put_fault E i with
      | Ok it, None => it :: written_from E (S i) rest
      | _, _ => written_from E (S i) rest
      end
  end.

(** Upserting a list of items, in order. *)
Definition upsert_all (t : gmap (pyval * pyval) worker.item) (items : list worker.item)
  : gmap (pyval * pyval) worker.item :=
  foldl (fun t it => <[worker.item_key it := it]> t) t items.

(** ** Batches in parts, and the table key by key *)

(** The surroundings of a batch as its records from the k-th on see them. *)
Definition shift_env (k : nat) (E : worker.env) : worker.env :=
  {| worker.utcnow_isoformat := fun i => worker.utcnow_isoformat E (k + i);
     worker.put_fault := fun i => worker.put_fault E (k + i) |}.

(** The last of the items that has the key [k]. *)
Fixpoint latest (k : pyval * pyval) (items : list worker.item) : option worker.item :=
  match items with
  | [] => None
  | it :: rest =>
      match latest k rest with
      | Some x => Some x
      | None => if decide (worker.item_key it = k) then Some it else None
      end
  end.

(** How many of the responses are 202. *)
Definition accepted (rs : list ingest.response) : nat :=
  length (filter (fun r => ingest.statusCode r = 202%Z) rs).

(** [n * 0.05] for an integer [n]. *)
Definition cost_of_int (n : Z) : spec_float :=
  worker.fmul (worker.float_of_int n) worker.f0_05.

(** Whether [800 < n * 0.05] holds exactly from 16001 on, for the [fuel]
    integers from [n] on. *)
Fixpoint capped_from_16001 (fuel : nat) (n : Z) : bool :=
  match fuel with
  | O => true
  | S fuel' =>
      if Bool.eqb (worker.fltb worker.f800 (cost_of_int n)) (16000 <? n)%Z
      then capped_from_16001 fuel' (n + 1)%Z
      else false
  end.

End Vocabulary.

(* ================================================================== *)
(** * Concrete inputs *)

(** JSON text, written with apostrophes where the double quotes go. *)
Fixpoint js (s : string) : string :=
  match s with
  | EmptyString => EmptyString
  | String c rest =>
      String (if (nat_of_ascii c =? 39)%nat then ascii_of_nat 34 else c) (js rest)
  end.

(** A queue that takes every message and one that is unreachable. *)
Definition E_up : ingest.env :=
  {| ingest.QUEUE_URL := "https://sqs.example/ingest";
     ingest.uuid4 := 0xf47ac10b58cc4372a5670e02b2c3d479%N;
     ingest.sqs_fault := fun _ => None |}.

Definition E_down : ingest.env :=
  {| ingest.QUEUE_URL := "https://sqs.example/ingest";
     ingest.uuid4 := 0xf47ac10b58cc4372a5670e02b2c3d479%N;
     ingest.sqs_fault := fun _ => Some ClientError |}.

Definition q_empty : ingest.sqs := {| ingest.sqs_queue := []; ingest.sqs_calls := 0 |}.

(** The structured submission of the specification's section 8. *)
Definition ev_json : ingest.event :=
  {| ingest.ev_headers := Some [("Content-Type", "application/json")];
     ingest.ev_body := Some (js "{'tenant_id':'acme','text':'hello','log_id':'abc'}");
     ingest.ev_isBase64Encoded := Some false |}.

Definition r_json : ingest.response :=
  {| ingest.statusCode := 202;
     ingest.response_body := js "{'status': 'accepted', 'id': 'abc'}" |}.

Definition q_json : ingest.sqs :=
  {| ingest.sqs_queue :=
       [{| ingest.QueueUrl := "https://sqs.example/ingest";
           ingest.MessageBody :=
             js "{'tenant_id': 'acme', 'log_id': 'abc', 'original_text': 'hello', 'source': 'json_upload'}" |}];
     ingest.sqs_calls := 1 |}.

(** The plain-text submission of section 8, its header names in mixed
    case. *)
Definition ev_text : ingest.event :=
  {| ingest.ev_headers := Some [("Content-Type", "text/plain"); ("X-Tenant-Id", "beta")];
     ingest.ev_body := Some "hi there";
     ingest.ev_isBase64Encoded := None |}.

Definition r_text : ingest.response :=
  {| ingest.statusCode := 202;
     ingest.response_body :=
       js "{'status': 'accepted', 'id': 'f47ac10b-58cc-4372-a567-0e02b2c3d479'}" |}.

Definition q_text : ingest.sqs :=
  {| ingest.sqs_queue :=
       [{| ingest.QueueUrl := "https://sqs.example/ingest";
           ingest.MessageBody :=
             js "{'tenant_id': 'beta', 'log_id': 'f47ac10b-58cc-4372-a567-0e02b2c3d479', 'original_text': 'hi there', 'source': 'text_upload'}" |}];
     ingest.sqs_calls := 1 |}.

(** A body flagged as base64 that is one character long, and one whose
    bytes are not UTF-8. *)
Definition ev_garbage : ingest.event :=
  {| ingest.ev_headers := Some [("content-type", "text/plain")];
     ingest.ev_body := Some "a";
     ingest.ev_isBase64Encoded := Some true |}.

Definition ev_not_utf8 : ingest.event :=
  {| ingest.ev_headers := Some [("content-type", "application/json")];
     ingest.ev_body := Some "/w==";
     ingest.ev_isBase64Encoded := Some true |}.

(** A JSON submission whose body is an array. *)
Definition ev_array : ingest.event :=
  {| ingest.ev_headers := Some [("content-type", "application/json")];
     ingest.ev_body := Some "[]";
     ingest.ev_isBase64Encoded := Some false |}.

(** A content type with parameters that names both formats, and a body
    without a log_id. *)
Definition ev_both : ingest.event :=
  {| ingest.ev_headers :=
       Some [("CONTENT-TYPE", "text/plain, application/json; charset=utf-8")];
     ingest.ev_body := Some (js "{'tenant_id': 'acme', 'text': 'hello'}");
     ingest.ev_isBase64Encoded := None |}.

Definition W_first : worker.env :=
  {| worker.utcnow_isoformat := fun _ => "2024-05-01T10:00:00.000000";
     worker.put_fault := fun _ => None |}.

Definition W_again : worker.env :=
  {| worker.utcnow_isoformat := fun _ => "2024-05-01T10:05:00.000000";
     worker.put_fault := fun _ => None |}.

Definition w_empty : worker.world :=
  {| worker.table := ∅; worker.written := []; worker.slept := [] |}.

Definition rec_acme : worker.record :=
  {| worker.messageId := "m-1";
     worker.body :=
       js "{'tenant_id': 'acme', 'log_id': 'abc', 'original_text': 'hello world, again', 'source': 'json_upload'}" |}.

Definition rec_garbled : worker.record :=
  {| worker.messageId := "m-2"; worker.body := "{'tenant_id': truncated" |}.

Definition rec_beta : worker.record :=
  {| worker.messageId := "m-3";
     worker.body :=
       js "{'tenant_id': 'beta', 'log_id': 'xyz', 'original_text': 'hi there', 'source': 'text_upload'}" |}.

Definition batch3 : worker.event :=
  {| worker.Records := [rec_acme; rec_garbled; rec_beta] |}.

Definition item_acme (now : string) : worker.item :=
  {| worker.tenant_id := PStr "acme";
     worker.log_id := PStr "abc";
     worker.source := PStr "json_upload";
     worker.original_text := PStr "hello world, again";
     worker.modified_data := "hello worl... [REDACTED]";
     worker.processed_at := now |}.

(** The structured submission with its body in base64, and with headers
    the handler does not read. *)
Definition ev_json_base64 : ingest.event :=
  {| ingest.ev_headers := Some [("Content-Type", "application/json")];
     ingest.ev_body := Some "eyJ0ZW5hbnRfaWQiOiAiYWNtZSIsICJ0ZXh0IjogImhlbGxvIn0=";
     ingest.ev_isBase64Encoded := Some true |}.

Definition ev_json_more_headers : ingest.event :=
  {| ingest.ev_headers :=
       Some [("Authorization", "Bearer t"); ("Content-Type", "application/json");
             ("X-Tenant-Id", "beta")];
     ingest.ev_body := ingest.ev_body ev_json;
     ingest.ev_isBase64Encoded := Some false |}.

(** A plain-text submission with neither body nor tenant header. *)
Definition ev_text_bare : ingest.event :=
  {| ingest.ev_headers := Some [("content-type", "text/plain; charset=utf-8")];
     ingest.ev_body := None;
     ingest.ev_isBase64Encoded := None |}.

(** A JSON object whose tenant is a number and whose log_id is null. *)
Definition ev_json_untyped : ingest.event :=
  {| ingest.ev_headers := Some [("content-type", "application/json")];
     ingest.ev_body := Some (js "{'tenant_id': 7, 'log_id': null}");
     ingest.ev_isBase64Encoded := None |}.


Definition rec_bare : worker.record :=
  {| worker.messageId := "m-5"; worker.body := "{}" |}.

Definition item_bare (now : string) : worker.item :=
  {| worker.tenant_id := PNone;
     worker.log_id := PNone;
     worker.source := PNone;
     worker.original_text := PStr "";
     worker.modified_data := "... [REDACTED]";
     worker.processed_at := now |}.

(** A JSON object whose text is a number. *)
Definition ev_json_number_text : ingest.event :=
  {| ingest.ev_headers := Some [("content-type", "application/json")];
     ingest.ev_body := Some (js "{'tenant_id': 'acme', 'text': 5}");
     ingest.ev_isBase64Encoded := None |}.

(* ================================================================== *)
(** * Properties of the built-ins *)

Lemma prefix_app (n h : string) :
  String.prefix n h = true <-> exists b, h = n +:+ b.
Proof.
  revert h. induction n as [ | c n IH]; intros h.
  - split; [intros _; now exists h | intros _; now destruct h].
  - destruct h as [ | c' h]; simpl.
    + split; [discriminate | intros [b Hb]; discriminate].
    + destruct (ascii_dec c c') as [-> | Hne].
      * rewrite IH. split; intros [b Hb]; exists b; [now rewrite Hb | now inversion Hb].
      * split; [discriminate | intros [b Hb]; inversion Hb; congruence].
Qed.

(** [needle in hay] holds exactly when [hay] is some text, then [needle],
    then some text. *)
Lemma contains_spec (n h : string) :
  contains n h = true <-> exists a b, h = a +:+ n +:+ b.
Proof.
  induction h as [ | c h IH]; cbn [contains].
  - rewrite orb_false_r, prefix_app. split.
    + intros [b Hb]. now exists EmptyString, b.
    + intros [a [b Hab]]. destruct a as [ | x a]; [now exists b | discriminate].
  - rewrite orb_true_iff, prefix_app, IH. split.
    + intros [[b Hb] | [a [b Hab]]].
      * now exists EmptyString, b.
      * exists (String c a), b. simpl. now rewrite Hab.
    + intros [a [b Hab]]. destruct a as [ | x a]; simpl in Hab.
      * left. now exists b.
      * right. exists a, b. now inversion Hab.
Qed.

Lemma length_append (a b : string) :
  String.length (a +:+ b) = String.length a + String.length b.
Proof. induction a as [ | c a IH]; simpl; [reflexivity | now rewrite IH]. Qed.

Lemma length_hex k n : String.length (hex k n) = k.
Proof.
  revert n. induction k as [ | k IH]; intros n; simpl; [reflexivity | ].
  rewrite length_append, IH. simpl. lia.
Qed.

Lemma length_substring (s : string) (i n : nat) :
  i + n <= String.length s -> String.length (substring i n s) = n.
Proof.
  revert i n. induction s as [ | c s IH]; intros i n H; simpl in *.
  - destruct i, n; simpl; try reflexivity; lia.
  - destruct i as [ | i].
    + destruct n as [ | n]; simpl; [reflexivity | ]. f_equal.
      apply (IH 0 n). simpl. lia.
    + apply IH. lia.
Qed.

(** A UUID's text has 36 characters, so it is not empty. *)
Lemma length_uuid_str u : String.length (uuid_str u) = 36.
Proof.
  unfold uuid_str. pose proof (length_hex 32 u) as H.
  rewrite !length_append, !length_substring by lia. reflexivity.
Qed.

Lemma str_take_length (n : nat) (s : string) :
  String.length (str_take n s) = Nat.min n (String.length s).
Proof.
  revert s. induction n as [ | n IH]; intros [ | c s]; simpl; try reflexivity.
  now rewrite IH.
Qed.

(* ================================================================== *)
(** * The Ingest Normalizer *)

Section IngestRuns.
Context {lib : PyLib}.

Lemma lower_keys_fold (name : string) (items : list (string * string))
    (m : gmap string string) :
  foldl (fun m kv => <[lower (fst kv) := snd kv]> m) m items !! name
  = match header_ci name items with
    | Some x => Some x
    | None => m !! name
    end.
Proof.
  revert m. induction items as [ | [k v] items IH]; intros m; simpl; [reflexivity | ].
  rewrite IH. destruct (header_ci name items) as [x | ]; [reflexivity | ].
  simpl. destruct (String.eqb_spec (lower k) name) as [-> | Hne].
  - apply lookup_insert_eq.
  - now apply lookup_insert_ne.
Qed.

(** The dictionary of lowered headers answers as the casing-blind lookup. *)
Lemma lower_keys_lookup (name : string) (items : list (string * string)) :
  ingest.lower_keys items !! name = header_ci name items.
Proof.
  unfold ingest.lower_keys. rewrite lower_keys_fold.
  destruct (header_ci name items); [reflexivity | apply lookup_empty].
Qed.

(** The lookup only sees lowered names: two header lists that differ in
    the casing of their names answer alike. *)
Lemma header_ci_casing (name : string) (items1 items2 : list (string * string)) :
  lowered items1 = lowered items2 -> header_ci name items1 = header_ci name items2.
Proof.
  revert items2. induction items1 as [ | [k1 v1] items1 IH]; intros [ | [k2 v2] items2] H;
    simpl in H; try discriminate; [reflexivity | ].
  inversion H as [[Hk Hv Hrest]]. simpl. rewrite (IH items2 Hrest), Hk. reflexivity.
Qed.

(** Step 2 does not touch the queue. *)
Lemma handle_body_run (ev : ingest.event) (q : ingest.sqs) :
  ingest.handle_body ev q
  = (match body_text ev with
     | Ok s => ingest.Next s
     | Raise e => ingest.Throw e
     end, q).
Proof.
  unfold ingest.handle_body, body_text.
  destruct (default false (ingest.ev_isBase64Encoded ev)); [ | reflexivity].
  unfold ingest.bind, ingest.lift, rbind.
  destruct (b64decode _) as [bytes | e]; [ | reflexivity].
  destruct (utf8_decode bytes); reflexivity.
Qed.

(** Scenario 1 does not touch the queue. *)
Lemma json_scenario_run (body : string) (fresh : pyval) (q : ingest.sqs) :
  ingest.json_scenario body fresh q = (json_fields body fresh, q).
Proof.
  unfold ingest.json_scenario, json_fields, ingest.try_except_JSONDecodeError,
    ingest.bind, ingest.lift, ingest.ret, ingest.return_.
  destruct (json_loads body) as [data | e].
  - destruct data; try reflexivity.
    cbn [py_get py_in py_getitem].
    destruct (dict_lookup d "log_id") as [x | ] eqn:Hx.
    + rewrite bool_decide_eq_true_2 by eauto. reflexivity.
    + rewrite bool_decide_eq_false_2 by (intros [y Hy]; discriminate). reflexivity.
  - destruct e; reflexivity.
Qed.

(** Steps 1 to 3 do not touch the queue. *)
Lemma normalize_run (E : ingest.env) (ev : ingest.event) (q : ingest.sqs) :
  ingest.normalize E ev q = (normalized E ev, q).
Proof.
  unfold ingest.normalize, normalized, ingest.bind, ingest.text_scenario.
  rewrite handle_body_run. destruct (body_text ev) as [body | e]; [ | reflexivity].
  unfold content_type, header_tenant. rewrite !lower_keys_lookup.
  destruct (contains "application/json" _); [apply json_scenario_run | ].
  destruct (contains "text/plain" _); reflexivity.
Qed.

(** The whole handler, path by path. *)
Lemma lambda_handler_run (E : ingest.env) (ev : ingest.event) (q : ingest.sqs) :
  ingest.lambda_handler E ev q
  = match normalized E ev with
    | ingest.Return r => (r, q)
    | ingest.Throw _ => (response_500, q)
    | ingest.Next f =>
        match ingest.sqs_fault E (ingest.sqs_calls q) with
        | None => (response_202 (log_id_of f), enqueued q (envelope_message E f))
        | Some _ => (response_500, refused q)
        end
    end.
Proof.
  unfold ingest.lambda_handler, ingest.try_except_Exception, ingest.bind.
  rewrite normalize_run. destruct (normalized E ev) as [[[[t p] s] l] | r | e];
    try reflexivity.
  unfold ingest.handoff, ingest.bind, ingest.send_message, ingest.return_.
  destruct (ingest.sqs_fault E _); reflexivity.
Qed.

End IngestRuns.

Section IngestClaims.
Context {lib : PyLib}.

(** A body that is not JSON is answered 400, and the queue is not called. *)
Theorem ingest_invalid_json_rejected (E : ingest.env) (ev : ingest.event) (q : ingest.sqs)
    (body : string) :
  body_text ev = Ok body ->
  contains "application/json" (content_type ev) = true ->
  json_loads body = Raise JSONDecodeError ->
  ingest.lambda_handler E ev q = (response_400_json, q).
Proof.
  intros Hbody Hct Hjson. rewrite lambda_handler_run. unfold normalized.
  rewrite Hbody, Hct. unfold json_fields. now rewrite Hjson.
Qed.

(** A body that is JSON but not an object has no [get]: the exception
    passes the inner handler, the answer is the 500 response, and the queue
    is not called. *)
Theorem ingest_non_object_json_is_server_error
    (E : ingest.env) (ev : ingest.event) (q : ingest.sqs) (body : string) (v : pyval) :
  body_text ev = Ok body ->
  contains "application/json" (content_type ev) = true ->
  json_loads body = Ok v ->
  (forall d, v <> PDict d) ->
  ingest.lambda_handler E ev q = (response_500, q).
Proof.
  intros Hbody Hct Hjson Hshape. rewrite lambda_handler_run. unfold normalized.
  rewrite Hbody, Hct. unfold json_fields. rewrite Hjson.
  destruct v; try reflexivity. now contradiction (Hshape d).
Qed.

(** C4 (amended). A body flagged as base64 that cannot be decoded, whether
    [b64decode] or the UTF-8 decoding raises, is answered with the 500
    response whatever the declared content type, and the queue is left as it
    was, without a [send_message] call. *)
Theorem ingest_undecodable_body_is_server_error
    (E : ingest.env) (ev : ingest.event) (q : ingest.sqs) (e : exn) :
  ingest.ev_isBase64Encoded ev = Some true ->
  (b64decode (default "" (ingest.ev_body ev)) = Raise e
   \/ exists bytes, b64decode (default "" (ingest.ev_body ev)) = Ok bytes
                    /\ utf8_decode bytes = Raise e) ->
  ingest.lambda_handler E ev q = (response_500, q).
Proof.
  intros Hflag Hdec. rewrite lambda_handler_run. unfold normalized, body_text.
  rewrite Hflag. simpl.
  destruct Hdec as [Hb | [bytes [Hb Hu]]]; rewrite Hb; simpl; [reflexivity | ].
  now rewrite Hu.
Qed.

(** C6. An accepted JSON submission: the body parsed to an object; the one
    message enqueued is the envelope whose [tenant_id] and [original_text]
    are the object's [tenant_id] and [text] (["unknown"] and [""] when it
    has none), whose [log_id] is the object's [log_id] when it has one and
    the text of the UUID drawn for this invocation, 36 characters long,
    otherwise; the 202 response carries that same [log_id]. *)
Theorem ingest_json_envelope
    (E : ingest.env) (ev : ingest.event) (q q' : ingest.sqs) (r : ingest.response) :
  ingest.lambda_handler E ev q = (r, q') ->
  contains "application/json" (content_type ev) = true ->
  ingest.statusCode r = 202%Z ->
  exists (body : string) (d : list (string * pyval)) (tenant_id log_id text : pyval),
    body_text ev = Ok body /\ json_loads body = Ok (PDict d) /\
    ingest.sqs_queue q'
    = (ingest.sqs_queue q
        ++ [{| ingest.QueueUrl := ingest.QUEUE_URL E;
               ingest.MessageBody :=
                 json_dumps (ingest.message tenant_id log_id text "json_upload") |}])%list /\
    r = response_202 log_id /\
    tenant_id = default (PStr "unknown") (dict_lookup d "tenant_id") /\
    text = default (PStr "") (dict_lookup d "text") /\
    (forall x, dict_lookup d "log_id" = Some x -> log_id = x) /\
    (dict_lookup d "log_id" = None ->
     log_id = PStr (uuid_str (ingest.uuid4 E))
     /\ String.length (uuid_str (ingest.uuid4 E)) = 36).
Proof.
  intros Hrun Hct Hst. rewrite lambda_handler_run in Hrun. unfold normalized in Hrun.
  destruct (body_text ev) as [body | e] eqn:Hbody;
    [ | inversion Hrun; subst; discriminate].
  rewrite Hct in Hrun. unfold json_fields in Hrun.
  destruct (json_loads body) as [data | e] eqn:Hdata.
  - destruct data as [ | | | | | | d];
      try (inversion Hrun; subst; discriminate).
    destruct (ingest.sqs_fault E _); [inversion Hrun; subst; discriminate | ].
    inversion Hrun; subst; clear Hrun.
    eexists body, d, _, _, _. split_and!; try reflexivity; try assumption.
    + intros x Hx. now rewrite Hx.
    + intros Hx. rewrite Hx. split; [reflexivity | apply length_uuid_str].
  - destruct e; inversion Hrun; subst; discriminate.
Qed.

(** C7. An accepted plain-text submission: the one message enqueued is the
    envelope whose [tenant_id] is the value of the [x-tenant-id] header
    found without regard to the casing of header names (["unknown"] when no
    header has that name) and whose [original_text] is the decoded body;
    and an event whose headers differ only in the casing of their names
    gets the same answer and leaves the same queue. *)
Theorem ingest_text_envelope
    (E : ingest.env) (ev : ingest.event) (q q' : ingest.sqs) (r : ingest.response) :
  ingest.lambda_handler E ev q = (r, q') ->
  contains "application/json" (content_type ev) = false ->
  contains "text/plain" (content_type ev) = true ->
  ingest.statusCode r = 202%Z ->
  exists (body tenant : string),
    body_text ev = Ok body /\
    ingest.sqs_queue q'
    = (ingest.sqs_queue q
        ++ [{| ingest.QueueUrl := ingest.QUEUE_URL E;
               ingest.MessageBody :=
                 json_dumps (ingest.message (PStr tenant)
                               (PStr (uuid_str (ingest.uuid4 E))) (PStr body)
                               "text_upload") |}])%list /\
    (forall v, header_ci "x-tenant-id" (default [] (ingest.ev_headers ev)) = Some v ->
               tenant = v) /\
    (header_ci "x-tenant-id" (default [] (ingest.ev_headers ev)) = None ->
     tenant = "unknown") /\
    (forall items : list (string * string),
        lowered items = lowered (default [] (ingest.ev_headers ev)) ->
        ingest.lambda_handler E
          {| ingest.ev_headers := Some items;
             ingest.ev_body := ingest.ev_body ev;
             ingest.ev_isBase64Encoded := ingest.ev_isBase64Encoded ev |} q
        = (r, q')).
Proof.
  intros Hrun Hj Ht Hst.
  assert (Hcase : forall items : list (string * string),
             lowered items = lowered (default [] (ingest.ev_headers ev)) ->
             ingest.lambda_handler E
               {| ingest.ev_headers := Some items;
                  ingest.ev_body := ingest.ev_body ev;
                  ingest.ev_isBase64Encoded := ingest.ev_isBase64Encoded ev |} q
             = (r, q')).
  { intros items Hitems. rewrite <- Hrun, !lambda_handler_run.
    unfold normalized, content_type, header_tenant, body_text. simpl.
    now rewrite !(header_ci_casing _ _ _ Hitems). }
  rewrite lambda_handler_run in Hrun. unfold normalized in Hrun.
  destruct (body_text ev) as [body | e] eqn:Hbody;
    [ | inversion Hrun; subst; discriminate].
  rewrite Hj, Ht in Hrun.
  destruct (ingest.sqs_fault E _); [inversion Hrun; subst; discriminate | ].
  inversion Hrun; subst; clear Hrun.
  exists body, (header_tenant ev). unfold header_tenant.
  split_and!; try reflexivity; try exact Hcase.
  - intros v Hv. now rewrite Hv.
  - intros Hv. now rewrite Hv.
Qed.

End IngestClaims.

Section IngestQueue.
Context {lib : PyLib}.

(** C8. [send_message] is called at most once, and only when steps 1
    to 3 have completed with the envelope's four fields; an invocation
    answered 202 made exactly one call, and what it enqueued is the dumped
    envelope.  On every rejection path the queue is left as it was, without
    a call: when steps 1 to 3 end in a rejection or in an exception, on
    every 400 answer, for an unsupported content type, for a body that is
    declared JSON and does not parse, and for a body that does not decode.
    Whatever the queue holds afterwards it held before, or it is the
    envelope that steps 1 to 3 constructed. *)
Theorem ingest_enqueue_once_after_normalization
    (E : ingest.env) (ev : ingest.event) (q q' : ingest.sqs) (r : ingest.response) :
  ingest.lambda_handler E ev q = (r, q') ->
  ingest.sqs_calls q' <= S (ingest.sqs_calls q) /\
  (ingest.sqs_calls q' <> ingest.sqs_calls q ->
   exists f, fst (ingest.normalize E ev q) = ingest.Next f) /\
  (forall f, fst (ingest.normalize E ev q) = ingest.Next f ->
     ingest.sqs_calls q' = S (ingest.sqs_calls q)) /\
  (ingest.statusCode r = 202%Z ->
   exists f, fst (ingest.normalize E ev q) = ingest.Next f
             /\ r = response_202 (log_id_of f)
             /\ ingest.sqs_calls q' = S (ingest.sqs_calls q)
             /\ ingest.sqs_queue q' = (ingest.sqs_queue q ++ [envelope_message E f])%list) /\
  (forall r0, fst (ingest.normalize E ev q) = ingest.Return r0 -> r = r0 /\ q' = q) /\
  (forall e, fst (ingest.normalize E ev q) = ingest.Throw e -> r = response_500 /\ q' = q) /\
  (ingest.statusCode r = 400%Z -> q' = q) /\
  (contains "application/json" (content_type ev) = false ->
   contains "text/plain" (content_type ev) = false -> q' = q) /\
  (forall body e,
      body_text ev = Ok body ->
      contains "application/json" (content_type ev) = true ->
      json_loads body = Raise e -> q' = q) /\
  (forall e, body_text ev = Raise e -> q' = q) /\
  (forall m, m ∈ ingest.sqs_queue q' ->
             m ∈ ingest.sqs_queue q
             \/ exists f, fst (ingest.normalize E ev q) = ingest.Next f
                          /\ m = envelope_message E f).
Proof.
  intros Hrun. rewrite lambda_handler_run in Hrun. rewrite normalize_run. simpl.
  assert (Htype : contains "application/json" (content_type ev) = false ->
                  contains "text/plain" (content_type ev) = false ->
                  forall f, normalized E ev <> ingest.Next f).
  { intros Hj Ht f. unfold normalized. destruct (body_text ev); [ | discriminate].
    rewrite Hj, Ht. discriminate. }
  assert (Hjson : forall body e,
             body_text ev = Ok body ->
             contains "application/json" (content_type ev) = true ->
             json_loads body = Raise e ->
             forall f, normalized E ev <> ingest.Next f).
  { intros body e Hb Hj Hl f. unfold normalized, json_fields. rewrite Hb, Hj, Hl.
    destruct e; discriminate. }
  assert (Hdec : forall e, body_text ev = Raise e ->
                           forall f, normalized E ev <> ingest.Next f).
  { intros e Hb f. unfold normalized. rewrite Hb. discriminate. }
  assert (Hret : forall r0, normalized E ev = ingest.Return r0 ->
                            ingest.statusCode r0 = 400%Z).
  { unfold normalized, json_fields. intros r0.
    destruct (body_text ev); [ | discriminate].
    destruct (contains "application/json" _).
    - destruct (json_loads _) as [[ | | | | | | ] | []]; try discriminate;
        intros H; inversion H; reflexivity.
    - destruct (contains "text/plain" _); [discriminate | ].
      intros H; inversion H; reflexivity. }
  destruct (normalized E ev) as [f | r0 | e] eqn:Hn.
  - assert (Hcalls : ingest.sqs_calls q' = S (ingest.sqs_calls q)).
    { destruct (ingest.sqs_fault E _); inversion Hrun; reflexivity. }
    split_and!.
    + lia.
    + intros _. eauto.
    + intros f0 _. exact Hcalls.
    + intros Hst. exists f.
      destruct (ingest.sqs_fault E _); inversion Hrun; subst; [discriminate | ].
      split_and!; reflexivity.
    + discriminate.
    + discriminate.
    + intros Hst. destruct (ingest.sqs_fault E _); inversion Hrun; subst; discriminate.
    + intros Hj Ht. exfalso. now apply (Htype Hj Ht f).
    + intros body e Hb Hj Hl. exfalso. now apply (Hjson body e Hb Hj Hl f).
    + intros e Hb. exfalso. now apply (Hdec e Hb f).
    + intros m Hm. destruct (ingest.sqs_fault E _); inversion Hrun; subst; simpl in Hm.
      * now left.
      * apply elem_of_app in Hm. destruct Hm as [Hm | Hm]; [now left | ].
        apply list_elem_of_singleton in Hm. right. eauto.
  - inversion Hrun; subst; clear Hrun. pose proof (Hret r eq_refl) as H400.
    split_and!.
    + lia.
    + intros Hne. contradiction Hne. reflexivity.
    + discriminate.
    + intros Hst. rewrite H400 in Hst. discriminate.
    + intros r1 Hr1. inversion Hr1. split; reflexivity.
    + discriminate.
    + reflexivity.
    + reflexivity.
    + reflexivity.
    + reflexivity.
    + intros m Hm. now left.
  - inversion Hrun; subst; clear Hrun.
    split_and!.
    + lia.
    + intros Hne. contradiction Hne. reflexivity.
    + discriminate.
    + discriminate.
    + discriminate.
    + intros e0 _. split; reflexivity.
    + reflexivity.
    + reflexivity.
    + reflexivity.
    + reflexivity.
    + intros m Hm. now left.
Qed.

(** C9. Whatever the handler enqueues is one message whose body is the
    dump of a dictionary with exactly the keys [tenant_id], [log_id],
    [original_text] and [source], in an invocation answered 202; [source]
    is ["json_upload"] when the content type took scenario 1 and
    ["text_upload"] when it took scenario 2.  On every other answer the
    queue holds what it held.  A malformed submission is rejected and the
    queue is left as it was, without a call: a body declared JSON that
    does not parse is answered 400 "Invalid JSON", one that parses to
    something other than an object is not answered 202, an unsupported
    content type is not answered 202, and is answered 400 "Unsupported
    Content-Type" when the body was read, and a body that does not decode
    is not answered 202.  Conversely an invocation answered 202 read its
    body and either parsed it to an object or took it as plain text. *)
Theorem ingest_enqueued_envelope_well_formed
    (E : ingest.env) (ev : ingest.event) (q q' : ingest.sqs) (r : ingest.response) :
  ingest.lambda_handler E ev q = (r, q') ->
  ((ingest.statusCode r <> 202%Z /\ ingest.sqs_queue q' = ingest.sqs_queue q)
   \/ (ingest.statusCode r = 202%Z /\
       exists (tenant_id log_id original_text : pyval) (source : string),
         ingest.sqs_queue q'
         = (ingest.sqs_queue q
              ++ [{| ingest.QueueUrl := ingest.QUEUE_URL E;
                     ingest.MessageBody :=
                       json_dumps (PDict [("tenant_id", tenant_id);
                                          ("log_id", log_id);
                                          ("original_text", original_text);
                                          ("source", PStr source)]) |}])%list /\
         ((source = "json_upload"
           /\ contains "application/json" (content_type ev) = true)
          \/ (source = "text_upload"
              /\ contains "application/json" (content_type ev) = false
              /\ contains "text/plain" (content_type ev) = true)))) /\
  (forall body,
      body_text ev = Ok body ->
      contains "application/json" (content_type ev) = true ->
      json_loads body = Raise JSONDecodeError ->
      r = response_400_json /\ q' = q) /\
  (forall body v,
      body_text ev = Ok body ->
      contains "application/json" (content_type ev) = true ->
      json_loads body = Ok v -> (forall d, v <> PDict d) ->
      ingest.statusCode r <> 202%Z /\ q' = q) /\
  (contains "application/json" (content_type ev) = false ->
   contains "text/plain" (content_type ev) = false ->
   ingest.statusCode r <> 202%Z /\ q' = q
   /\ forall body, body_text ev = Ok body -> r = response_400_type) /\
  (forall e, body_text ev = Raise e -> ingest.statusCode r <> 202%Z /\ q' = q) /\
  (ingest.statusCode r = 202%Z ->
   exists body,
     body_text ev = Ok body
     /\ ((contains "application/json" (content_type ev) = true
          /\ exists d, json_loads body = Ok (PDict d))
         \/ (contains "application/json" (content_type ev) = false
             /\ contains "text/plain" (content_type ev) = true))).
Proof.
  intros Hrun. rewrite lambda_handler_run in Hrun. unfold normalized in Hrun.
  split_and!.
  - destruct (body_text ev) as [body | e];
      [ | inversion Hrun; subst; left; split; [discriminate | reflexivity]].
    destruct (contains "application/json" (content_type ev)) eqn:Hj.
    + unfold json_fields in Hrun.
      destruct (json_loads body) as [[ | | | | | | d] | e];
        try (inversion Hrun; subst; left; split; [discriminate | reflexivity]).
      * destruct (ingest.sqs_fault E _);
          inversion Hrun; subst; [left; split; [discriminate | reflexivity] | ].
        right. split; [reflexivity | ]. eexists _, _, _, _.
        split; [reflexivity | left; now split].
      * destruct e; inversion Hrun; subst; left; split; (discriminate || reflexivity).
    + destruct (contains "text/plain" (content_type ev)) eqn:Ht;
        [ | inversion Hrun; subst; left; split; [discriminate | reflexivity]].
      destruct (ingest.sqs_fault E _);
        inversion Hrun; subst; [left; split; [discriminate | reflexivity] | ].
      right. split; [reflexivity | ]. eexists _, _, _, _.
      split; [reflexivity | right; now split_and!].
  - intros body Hb Hj Hl. rewrite Hb, Hj in Hrun. unfold json_fields in Hrun.
    rewrite Hl in Hrun. inversion Hrun; subst. split; reflexivity.
  - intros body v Hb Hj Hl Hshape. rewrite Hb, Hj in Hrun. unfold json_fields in Hrun.
    rewrite Hl in Hrun.
    destruct v; try (inversion Hrun; subst; split; [discriminate | reflexivity]).
    contradiction (Hshape d eq_refl).
  - intros Hj Ht. rewrite Hj, Ht in Hrun.
    destruct (body_text ev) as [body | e]; inversion Hrun; subst;
      (split_and!; [discriminate | reflexivity | ]).
    + intros body' _. reflexivity.
    + intros body' Hb. discriminate.
  - intros e Hb. rewrite Hb in Hrun. inversion Hrun; subst. split; [discriminate | reflexivity].
  - intros Hst. destruct (body_text ev) as [body | e];
      [ | inversion Hrun; subst; discriminate].
    exists body. split; [reflexivity | ].
    destruct (contains "application/json" (content_type ev)) eqn:Hj.
    + left. split; [reflexivity | ]. unfold json_fields in Hrun.
      destruct (json_loads body) as [[ | | | | | | d] | e];
        try (inversion Hrun; subst; discriminate); eauto.
      destruct e; inversion Hrun; subst; discriminate.
    + right. split; [reflexivity | ].
      destruct (contains "text/plain" (content_type ev)); [reflexivity | ].
      inversion Hrun; subst; discriminate.
Qed.

(** C10. Once the body is read, the content type decides by containment,
    JSON first: a value in which ["application/json"] occurs takes scenario
    1, also when it carries parameters or ["text/plain"] as well; any other
    value in which ["text/plain"] occurs takes scenario 2; any other value
    is answered 400 "Unsupported Content-Type" with the queue untouched;
    and an event without a content-type header has the content type [""]
    and gets that answer. *)
Theorem ingest_content_type_classification
    (E : ingest.env) (ev : ingest.event) (q : ingest.sqs) (body : string) :
  body_text ev = Ok body ->
  let ct := content_type ev in
  let fresh := PStr (uuid_str (ingest.uuid4 E)) in
  let headers := ingest.lower_keys (default [] (ingest.ev_headers ev)) in
  (forall needle, contains needle ct = true <-> exists a b, ct = a +:+ needle +:+ b) /\
  contains "application/json" "application/json; charset=utf-8" = true /\
  contains "application/json" "text/plain, application/json" = true /\
  (contains "application/json" ct = true ->
   ingest.lambda_handler E ev q = handler_along E (ingest.json_scenario body fresh) q) /\
  (contains "application/json" ct = false -> contains "text/plain" ct = true ->
   ingest.lambda_handler E ev q
   = handler_along E (ingest.text_scenario headers body fresh) q) /\
  (contains "application/json" ct = false -> contains "text/plain" ct = false ->
   ingest.lambda_handler E ev q = (response_400_type, q)) /\
  (header_ci "content-type" (default [] (ingest.ev_headers ev)) = None ->
   ct = "" /\ ingest.lambda_handler E ev q = (response_400_type, q)).
Proof.
  intros Hbody ct fresh headers.
  assert (Hnorm : forall path : ingest.M ingest.fields,
             ingest.normalize E ev q = path q ->
             ingest.lambda_handler E ev q = handler_along E path q).
  { intros path Hp. unfold ingest.lambda_handler, handler_along,
      ingest.try_except_Exception, ingest.bind. now rewrite Hp. }
  assert (Hraw : forall q0, ingest.normalize E ev q0
                 = (if contains "application/json" ct
                    then ingest.json_scenario body fresh
                    else if contains "text/plain" ct
                         then ingest.text_scenario headers body fresh
                         else ingest.return_ response_400_type) q0).
  { intros q0. unfold ingest.normalize, ingest.bind. rewrite handle_body_run, Hbody.
    rewrite lower_keys_lookup. reflexivity. }
  assert (Hnone : contains "application/json" ct = false ->
                  contains "text/plain" ct = false ->
                  ingest.lambda_handler E ev q = (response_400_type, q)).
  { intros Hj Ht. rewrite lambda_handler_run. unfold normalized.
    fold ct. now rewrite Hbody, Hj, Ht. }
  split_and!.
  - intros needle. apply contains_spec.
  - reflexivity.
  - reflexivity.
  - intros Hj. apply Hnorm. now rewrite Hraw, Hj.
  - intros Hj Ht. apply Hnorm. now rewrite Hraw, Hj, Ht.
  - exact Hnone.
  - intros Hmiss. assert (Hct : ct = "").
    { unfold ct, content_type. now rewrite Hmiss. }
    split; [exact Hct | ]. apply Hnone; rewrite Hct; reflexivity.
Qed.

(** Every answer is one of four: the 202 for some [log_id], one of the two
    400 rejections, or the 500 response, whose body is the same text
    whatever was raised. *)
Theorem ingest_answers (E : ingest.env) (ev : ingest.event) (q : ingest.sqs) :
  let r := fst (ingest.lambda_handler E ev q) in
  (exists log_id, r = response_202 log_id)
  \/ r = response_400_json \/ r = response_400_type \/ r = response_500.
Proof.
  simpl. rewrite lambda_handler_run. unfold normalized.
  destruct (body_text ev) as [body | e]; [ | auto].
  destruct (contains "application/json" (content_type ev)).
  - unfold json_fields.
    destruct (json_loads body) as [[ | | | | | | d] | e]; simpl; auto.
    + destruct (ingest.sqs_fault E _); simpl; eauto.
    + destruct e; simpl; auto.
  - destruct (contains "text/plain" (content_type ev)); simpl; auto.
    destruct (ingest.sqs_fault E _); simpl; eauto.
Qed.

End IngestQueue.

(* ================================================================== *)
(** * The Batch Processor *)

(** ** The capped cost never exceeds the ceiling *)

Lemma shr_1_nonneg (mrs : shr_record) :
  (0 <= shr_m mrs)%Z -> (0 <= shr_m (shr_1 mrs))%Z.
Proof.
  destruct mrs as [m r s]. simpl.
  destruct m as [ | [p | p | ] | [p | p | ]]; simpl; intros H; lia.
Qed.

Lemma iter_pos_shr_1_nonneg (p : positive) (mrs : shr_record) :
  (0 <= shr_m mrs)%Z -> (0 <= shr_m (SpecFloat.iter_pos shr_1 p mrs))%Z.
Proof.
  revert mrs. induction p as [p IH | p IH | ]; intros mrs H; simpl.
  - apply IH, IH, shr_1_nonneg, H.
  - apply IH, IH, H.
  - apply shr_1_nonneg, H.
Qed.











(** ** One record *)

Section WorkerRuns.
Context {lib : PyLib}.

Lemma record_fails_item (E : worker.env) (i : nat) (r : worker.record) :
  record_fails E i r = false
  <-> exists it, item_of E i r = Ok it /\ worker.put_fault E i = None.
Proof.
  unfold record_fails, deserialization_fails, processing_fails, store_write_fails, item_of.
  destruct (json_loads (worker.body r)) as [[ | | | | | | d] | e]; simpl;
    try (split; [discriminate | intros [it [H _]]; discriminate]).
  destruct (build_item E i d) as [it | e]; simpl.
  - destruct (worker.put_fault E i); split; try discriminate; eauto.
    intros [it' [_ H]]. discriminate.
  - split; [discriminate | intros [it [H _]]; discriminate].
Qed.

(** The [try] body of one record, outcome and world. *)
Lemma process_record_run (E : worker.env) (i : nat) (r : worker.record) (w : worker.world) :
  snd (worker.process_record E i r w) = after_record E i r w
  /\ (record_fails E i r = true
      <-> exists e, fst (worker.process_record E i r w) = Raise e).
Proof.
  unfold worker.process_record, after_record, record_fails, deserialization_fails,
    processing_fails, store_write_fails, item_of, sleeps, build_item,
    worker.bind, worker.lift, worker.time_sleep, worker.put_item, rbind.
  destruct w as [t wr sl]. cbn [worker.table worker.written worker.slept].
  destruct (json_loads (worker.body r)) as [data | e]; simpl.
  2:{ rewrite app_nil_r. split; [reflexivity | split; eauto]. }
  destruct data as [ | | | | | | d]; simpl;
    try (rewrite app_nil_r; split; [reflexivity | split; eauto]).
  unfold text_of.
  destruct (py_len (default (PStr "") (dict_lookup d "original_text"))) as [n | e]; simpl.
  2:{ rewrite app_nil_r. split; [reflexivity | split; eauto]. }
  destruct (py_slice_to 10 (default (PStr "") (dict_lookup d "original_text")))
    as [preview | e]; simpl.
  2:{ split; [reflexivity | split; eauto]. }
  destruct (worker.put_fault E i) as [e | ]; simpl.
  - split; [reflexivity | split; eauto].
  - split; [reflexivity | split; [discriminate | intros [e He]; discriminate]].
Qed.

End WorkerRuns.

(** ** The batch *)

Section WorkerBatch.
Context {lib : PyLib}.

Lemma for_records_run (E : worker.env) (rs : list worker.record) :
  forall (i : nat) (fs : list string) (w : worker.world),
    worker.for_records E i rs fs w
    = (fs ++ failed_from E i rs,
       {| worker.table := upsert_all (worker.table w) (written_from E i rs);
          worker.written := worker.written w ++ written_from E i rs;
          worker.slept := worker.slept w ++ concat (List.map sleeps rs) |}).
Proof.
  induction rs as [ | r rs IH]; intros i fs [t wr sl]; simpl.
  - now rewrite !app_nil_r.
  - destruct (process_record_run E i r {| worker.table := t; worker.written := wr;
                                          worker.slept := sl |}) as [Hw Hf].
    destruct (worker.process_record E i r _) as [[u | e] w'] eqn:Hp; simpl in Hw, Hf;
      subst w'; rewrite IH; unfold after_record; simpl.
    + assert (Hok : record_fails E i r = false).
      { destruct (record_fails E i r); [ | reflexivity].
        destruct Hf as [Hf _]. destruct (Hf eq_refl) as [e He]. discriminate. }
      rewrite Hok. apply record_fails_item in Hok. destruct Hok as [it [Hit Hput]].
      rewrite Hit, Hput. simpl. now rewrite <- !app_assoc.
    + assert (Hko : record_fails E i r = true) by (apply Hf; eauto).
      rewrite Hko.
      destruct (item_of E i r) as [it | e'] eqn:Hit.
      * destruct (worker.put_fault E i) eqn:Hput.
        -- simpl. now rewrite <- !app_assoc.
        -- assert (Hno : record_fails E i r = false) by (apply record_fails_item; eauto).
           congruence.
      * simpl. now rewrite <- !app_assoc.
Qed.

Lemma failed_from_spec (E : worker.env) (rs : list worker.record) (id : string) :
  forall i,
    id ∈ failed_from E i rs
    <-> exists j r, rs !! j = Some r /\ worker.messageId r = id
                    /\ record_fails E (i + j) r = true.
Proof.
  induction rs as [ | r rs IH]; intros i; simpl.
  - split; [intros H; inversion H | intros [j [r [H _]]]; discriminate].
  - rewrite elem_of_app, IH. split.
    + intros [H | [j [r' [Hj [Hid Hf]]]]].
      * destruct (record_fails E i r) eqn:Hr; [ | inversion H].
        apply list_elem_of_singleton in H. subst id.
        exists 0, r. rewrite Nat.add_0_r. auto.
      * exists (S j), r'. rewrite Nat.add_succ_r. auto.
    + intros [[ | j] [r' [Hj [Hid Hf]]]]; simpl in Hj.
      * inversion Hj; subst r'. rewrite Nat.add_0_r in Hf. rewrite Hf.
        left. subst id. apply list_elem_of_singleton. reflexivity.
      * right. exists j, r'. rewrite Nat.add_succ_r in Hf. auto.
Qed.

Lemma written_from_spec (E : worker.env) (rs : list worker.record) :
  forall i j r,
    rs !! j = Some r -> record_fails E (i + j) r = false ->
    exists it, item_of E (i + j) r = Ok it /\ it ∈ written_from E i rs.
Proof.
  induction rs as [ | r0 rs IH]; intros i [ | j] r Hj Hok; simpl in Hj; try discriminate.
  - inversion Hj; subst r0. apply record_fails_item in Hok.
    destruct Hok as [it [Hit Hput]]. exists it. split; [exact Hit | ].
    simpl. rewrite Nat.add_0_r in Hit, Hput. rewrite Hit, Hput. apply list_elem_of_here.
  - rewrite Nat.add_succ_r in *. destruct (IH (S i) j r Hj Hok) as [it [Hit Hin]].
    exists it. split; [exact Hit | ]. simpl.
    destruct (item_of E i r0); [destruct (worker.put_fault E i) | ]; try exact Hin.
    now apply list_elem_of_further.
Qed.

(** Every record either fails or is written. *)
Lemma failed_written_length (E : worker.env) (rs : list worker.record) :
  forall i, length (failed_from E i rs) + length (written_from E i rs) = length rs.
Proof.
  induction rs as [ | r rs IH]; intros i; simpl; [reflexivity | ].
  rewrite length_app. specialize (IH (S i)).
  destruct (record_fails E i r) eqn:Hr.
  - assert (Hw : written_from E i (r :: rs) = written_from E (S i) rs).
    { simpl. destruct (item_of E i r) as [it | ] eqn:Hit; [ | reflexivity].
      destruct (worker.put_fault E i) eqn:Hput; [reflexivity | ].
      assert (record_fails E i r = false) by (apply record_fails_item; eauto).
      congruence. }
    simpl in Hw. rewrite Hw. simpl. lia.
  - apply record_fails_item in Hr. destruct Hr as [it [Hit Hput]].
    rewrite Hit, Hput. simpl. lia.
Qed.

Lemma upsert_all_dom (items : list worker.item) :
  forall (t : gmap (pyval * pyval) worker.item) (it : worker.item),
    it ∈ items -> is_Some (upsert_all t items !! worker.item_key it).
Proof.
  unfold upsert_all.
  assert (Hkeep : forall (l : list worker.item) (t : gmap (pyval * pyval) worker.item) k,
             is_Some (t !! k)
             -> is_Some (foldl (fun t it => <[worker.item_key it := it]> t) t l !! k)).
  { induction l as [ | x l IHl]; intros t k Hk; simpl; [exact Hk | ].
    apply IHl. destruct (decide (worker.item_key x = k)) as [<- | Hne].
    - rewrite lookup_insert_eq. eauto.
    - now rewrite lookup_insert_ne. }
  induction items as [ | x items IH]; intros t it Hin; [inversion Hin | ].
  simpl. apply elem_of_cons in Hin. destruct Hin as [-> | Hin].
  - apply Hkeep. rewrite lookup_insert_eq. eauto.
  - now apply IH.
Qed.

End WorkerBatch.

Section WorkerClaims.
Context {lib : PyLib}.

Lemma failed_from_app (E : worker.env) (l1 l2 : list worker.record) :
  forall i, failed_from E i (l1 ++ l2)
            = failed_from E i l1 ++ failed_from E (i + length l1) l2.
Proof.
  induction l1 as [ | r l1 IH]; intros i; simpl.
  - now rewrite Nat.add_0_r.
  - now rewrite IH, Nat.add_succ_r, <- app_assoc.
Qed.

Lemma failed_from_none (E : worker.env) (rs : list worker.record) :
  forall i,
    (forall j r, rs !! j = Some r -> record_fails E (i + j) r = false) ->
    failed_from E i rs = [].
Proof.
  induction rs as [ | r rs IH]; intros i H; simpl; [reflexivity | ].
  rewrite (IH (S i)).
  - specialize (H 0 r eq_refl). rewrite Nat.add_0_r in H. now rewrite H.
  - intros j r' Hj. specialize (H (S j) r' Hj). now rewrite Nat.add_succ_r in H.
Qed.

(** C1. The identifiers the handler returns are exactly those of the
    records that fail, each failure being a deserialization, a processing
    or a store-write failure of that record alone; every record that does
    not fail has its item written to the table, whatever happens to the
    others; and a batch of three with one record that does not deserialize
    and two that succeed returns that one identifier and makes two
    writes. *)
Theorem worker_failures_are_the_failed_messages
    (E : worker.env) (ev : worker.event) (w : worker.world) :
  let rs := worker.Records ev in
  let fs := fst (worker.lambda_handler E ev w) in
  let w' := snd (worker.lambda_handler E ev w) in
  (forall id, id ∈ fs
              <-> exists i r, rs !! i = Some r /\ worker.messageId r = id
                              /\ record_fails E i r = true) /\
  (forall i r, record_fails E i r
               = deserialization_fails r || processing_fails E i r
                 || store_write_fails E i r) /\
  (exists items,
      worker.written w' = worker.written w ++ items /\
      length fs + length items = length rs /\
      forall i r, rs !! i = Some r -> record_fails E i r = false ->
                  exists it, item_of E i r = Ok it /\ it ∈ items
                             /\ is_Some (worker.table w' !! worker.item_key it)) /\
  (forall l1 bad l2,
      rs = l1 ++ bad :: l2 -> length l1 + length l2 = 2 ->
      deserialization_fails bad = true ->
      (forall j r, rs !! j = Some r -> j <> length l1 -> record_fails E j r = false) ->
      fs = [worker.messageId bad]
      /\ length (worker.written w') = length (worker.written w) + 2).
Proof.
  intros rs fs w'. subst fs w'. unfold worker.lambda_handler. fold rs.
  rewrite for_records_run. simpl. split_and!.
  - intros id. apply (failed_from_spec E rs id 0).
  - reflexivity.
  - exists (written_from E 0 rs). split_and!; [reflexivity | apply failed_written_length | ].
    intros i r Hi Hok. destruct (written_from_spec E rs 0 i r Hi Hok) as [it [Hit Hin]].
    exists it. split_and!; [exact Hit | exact Hin | now apply upsert_all_dom].
  - intros l1 bad l2 Hrs Hlen Hbad Hothers.
    assert (Hfs : failed_from E 0 rs = [worker.messageId bad]).
    { rewrite Hrs, failed_from_app. simpl.
      assert (Hb : record_fails E (length l1) bad = true).
      { unfold record_fails. now rewrite Hbad. }
      rewrite Hb, (failed_from_none E l1 0), (failed_from_none E l2 (S (length l1)));
        [reflexivity | | ].
      - intros j r Hj. apply Hothers; [ | lia].
        rewrite Hrs. rewrite lookup_app_r by lia.
        replace (S (length l1) + j - length l1)%nat with (S j) by lia. exact Hj.
      - intros j r Hj. simpl. pose proof (lookup_lt_Some _ _ _ Hj) as Hlt.
        apply Hothers; [ | lia]. rewrite Hrs. now rewrite lookup_app_l by lia. }
    split; [exact Hfs | ].
    pose proof (failed_written_length E rs 0) as Hcount.
    assert (Hthree : length rs = 3) by (rewrite Hrs, length_app; simpl; lia).
    rewrite Hfs, Hthree in Hcount. simpl in Hcount.
    rewrite length_app. lia.
Qed.


(** C2. When the same message is processed in two invocations and both
    succeed, the second write lands on the key of the first: the table
    after the second run is the table before the first with one record
    under [(tenant_id, log_id)], the second item; it has as many records as
    after the first run; and the second item is the first with only
    [processed_at] taken anew. *)
Theorem worker_redelivery_overwrites
    (E1 E2 : worker.env) (r : worker.record) (w0 : worker.world) :
  let ev := {| worker.Records := [r] |} in
  let run1 := worker.lambda_handler E1 ev w0 in
  let run2 := worker.lambda_handler E2 ev (snd run1) in
  fst run1 = [] -> fst run2 = [] ->
  exists it1 it2,
    item_of E1 0 r = Ok it1 /\ item_of E2 0 r = Ok it2 /\
    it2 = {| worker.tenant_id := worker.tenant_id it1;
             worker.log_id := worker.log_id it1;
             worker.source := worker.source it1;
             worker.original_text := worker.original_text it1;
             worker.modified_data := worker.modified_data it1;
             worker.processed_at := worker.utcnow_isoformat E2 0 |} /\
    worker.item_key it2 = worker.item_key it1 /\
    worker.table (snd run1) = <[worker.item_key it1 := it1]> (worker.table w0) /\
    worker.table (snd run2) = <[worker.item_key it1 := it2]> (worker.table w0) /\
    worker.table (snd run2) !! worker.item_key it1 = Some it2 /\
    dom (worker.table (snd run2)) = dom (worker.table (snd run1)) /\
    size (worker.table (snd run2)) = size (worker.table (snd run1)) /\
    worker.written (snd run2) = worker.written w0 ++ [it1; it2].
Proof.
  intros ev run1 run2. subst run1 run2 ev. unfold worker.lambda_handler.
  rewrite !for_records_run. simpl. rewrite !app_nil_r.
  destruct (record_fails E1 0 r) eqn:H1; [discriminate | ].
  destruct (record_fails E2 0 r) eqn:H2; [discriminate | ]. intros _ _.
  apply record_fails_item in H1, H2.
  destruct H1 as [it1 [Hit1 Hp1]], H2 as [it2 [Hit2 Hp2]].
  rewrite Hit1, Hp1, Hit2, Hp2. simpl.
  assert (Hsame : it2 = {| worker.tenant_id := worker.tenant_id it1;
                           worker.log_id := worker.log_id it1;
                           worker.source := worker.source it1;
                           worker.original_text := worker.original_text it1;
                           worker.modified_data := worker.modified_data it1;
                           worker.processed_at := worker.utcnow_isoformat E2 0 |}).
  { unfold item_of in Hit1, Hit2.
    destruct (json_loads (worker.body r)) as [[ | | | | | | d] | e]; try discriminate.
    unfold build_item, rbind in Hit1, Hit2.
    destruct (py_len (text_of d)); try discriminate.
    destruct (py_slice_to 10 (text_of d)); try discriminate.
    inversion Hit1; inversion Hit2; reflexivity. }
  assert (Hkey : worker.item_key it2 = worker.item_key it1) by (now rewrite Hsame).
  exists it1, it2. rewrite Hkey, insert_insert_eq.
  split_and!; try reflexivity; try assumption.
  - apply lookup_insert_eq.
  - rewrite !dom_insert_L. reflexivity.
  - rewrite !map_size_insert. reflexivity.
  - now rewrite <- app_assoc.
Qed.

(** The [try] body on a record whose payload is a string. *)
Lemma process_record_text
    (E : worker.env) (i : nat) (r : worker.record) (w : worker.world)
    (d : list (string * pyval)) (s : string) :
  json_loads (worker.body r) = Ok (PDict d) ->
  text_of d = PStr s ->
  worker.process_record E i r w
  = let it := {| worker.tenant_id := default PNone (dict_lookup d "tenant_id");
                 worker.log_id := default PNone (dict_lookup d "log_id");
                 worker.source := default PNone (dict_lookup d "source");
                 worker.original_text := PStr s;
                 worker.modified_data := str_take 10 s +:+ "... [REDACTED]";
                 worker.processed_at := worker.utcnow_isoformat E i |} in
    match worker.put_fault E i with
    | Some e =>
        (Raise e,
         {| worker.table := worker.table w;
            worker.written := worker.written w;
            worker.slept := worker.slept w ++ [worker.capped (worker.cost (String.length s))] |})
    | None =>
        (Ok tt,
         {| worker.table := <[worker.item_key it := it]> (worker.table w);
            worker.written := worker.written w ++ [it];
            worker.slept := worker.slept w ++ [worker.capped (worker.cost (String.length s))] |})
    end.
Proof.
  intros Hjson Htext.
  unfold worker.process_record, worker.bind, worker.lift, worker.time_sleep, worker.put_item.
  rewrite Hjson. cbn [py_get]. fold (text_of d). rewrite Htext.
  cbn [py_len py_slice_to py_format]. cbv zeta.
  destruct (worker.put_fault E i); reflexivity.
Qed.

(** The item of a record that succeeds is among the writes of every batch
    that has the record at that position. *)
Lemma record_item_written
    (E : worker.env) (i : nat) (r : worker.record) (it : worker.item)
    (ev : worker.event) (w0 : worker.world) :
  item_of E i r = Ok it -> worker.put_fault E i = None ->
  worker.Records ev !! i = Some r ->
  exists items,
    worker.written (snd (worker.lambda_handler E ev w0)) = worker.written w0 ++ items
    /\ it ∈ items.
Proof.
  intros Hit Hput Hi. unfold worker.lambda_handler. rewrite for_records_run. simpl.
  eexists. split; [reflexivity | ].
  assert (Hok : record_fails E (0 + i) r = false) by (apply record_fails_item; eauto).
  destruct (written_from_spec E (worker.Records ev) 0 i r Hi Hok) as [it' [Hit' Hin]].
  simpl in Hit'. congruence.
Qed.

Lemma item_of_text
    (E : worker.env) (i : nat) (r : worker.record) (d : list (string * pyval)) (s : string) :
  json_loads (worker.body r) = Ok (PDict d) ->
  text_of d = PStr s ->
  item_of E i r
  = Ok {| worker.tenant_id := default PNone (dict_lookup d "tenant_id");
          worker.log_id := default PNone (dict_lookup d "log_id");
          worker.source := default PNone (dict_lookup d "source");
          worker.original_text := PStr s;
          worker.modified_data := str_take 10 s +:+ "... [REDACTED]";
          worker.processed_at := worker.utcnow_isoformat E i |}.
Proof.
  intros Hjson Htext. unfold item_of, build_item. rewrite Hjson, Htext. reflexivity.
Qed.

(** When the handler processes a record whose payload is a string and
    the store takes the item, the item it writes and upserts has the
    payload whole as [original_text], the payload's first ten characters
    and the redaction marker as [modified_data], and the clock reading
    taken while that record is processed as [processed_at]; and the item
    is among the writes of every batch that has the record at that
    position. *)
Theorem worker_preview_is_redacted
    (E : worker.env) (i : nat) (r : worker.record) (w : worker.world)
    (d : list (string * pyval)) (s : string) :
  json_loads (worker.body r) = Ok (PDict d) ->
  text_of d = PStr s ->
  worker.put_fault E i = None ->
  exists it,
    worker.process_record E i r w
    = (Ok tt,
       {| worker.table := <[worker.item_key it := it]> (worker.table w);
          worker.written := worker.written w ++ [it];
          worker.slept := worker.slept w ++ [worker.capped (worker.cost (String.length s))] |})
    /\ worker.original_text it = PStr s
    /\ worker.modified_data it = str_take 10 s +:+ "... [REDACTED]"
    /\ String.length (str_take 10 s) <= 10
    /\ worker.processed_at it = worker.utcnow_isoformat E i
    /\ forall (ev : worker.event) (w0 : worker.world),
         worker.Records ev !! i = Some r ->
         exists items,
           worker.written (snd (worker.lambda_handler E ev w0)) = worker.written w0 ++ items
           /\ it ∈ items.
Proof.
  intros Hjson Htext Hput.
  rewrite (process_record_text E i r w d s Hjson Htext). cbv zeta. rewrite Hput.
  eexists. split_and!; [reflexivity | reflexivity | reflexivity | | reflexivity | ].
  - rewrite str_take_length. lia.
  - intros ev w0 Hi.
    apply (record_item_written E i r _ ev w0 (item_of_text E i r d s Hjson Htext) Hput Hi).
Qed.

(** The handoff: when the JSON library reads back what it dumped for the
    envelope and the store takes the item, the worker handed the message
    that an accepted plain-text submission enqueued reports no failure,
    sleeps for the cost of the submission's text, and writes and upserts an
    item with the submission's tenant, generated identifier and text, and
    ["text_upload"] as its source. *)
Theorem handoff_text_submission
    (E : ingest.env) (ev : ingest.event) (q q' : ingest.sqs) (r : ingest.response)
    (W : worker.env) (w : worker.world) (id : string) :
  ingest.lambda_handler E ev q = (r, q') ->
  contains "application/json" (content_type ev) = false ->
  contains "text/plain" (content_type ev) = true ->
  ingest.statusCode r = 202%Z ->
  (forall body,
      body_text ev = Ok body ->
      let envelope :=
        ingest.message (PStr (header_tenant ev)) (PStr (uuid_str (ingest.uuid4 E)))
          (PStr body) "text_upload" in
      json_loads (json_dumps envelope) = Ok envelope) ->
  worker.put_fault W 0 = None ->
  exists (m : ingest.sqs_message) (body : string) (it : worker.item),
    ingest.sqs_queue q' = ingest.sqs_queue q ++ [m] /\
    body_text ev = Ok body /\
    it = {| worker.tenant_id := PStr (header_tenant ev);
            worker.log_id := PStr (uuid_str (ingest.uuid4 E));
            worker.source := PStr "text_upload";
            worker.original_text := PStr body;
            worker.modified_data := str_take 10 body +:+ "... [REDACTED]";
            worker.processed_at := worker.utcnow_isoformat W 0 |} /\
    worker.lambda_handler W
      {| worker.Records :=
           [{| worker.messageId := id; worker.body := ingest.MessageBody m |}] |} w
    = ([],
       {| worker.table :=
            <[(PStr (header_tenant ev), PStr (uuid_str (ingest.uuid4 E))) := it]>
              (worker.table w);
          worker.written := worker.written w ++ [it];
          worker.slept :=
            worker.slept w ++ [worker.capped (worker.cost (String.length body))] |}).
Proof.
  intros Hrun Hj Ht Hst Hback Hput.
  rewrite lambda_handler_run in Hrun. unfold normalized in Hrun.
  destruct (body_text ev) as [body | e] eqn:Hbody;
    [ | inversion Hrun; subst; discriminate].
  rewrite Hj, Ht in Hrun.
  destruct (ingest.sqs_fault E _); [inversion Hrun; subst; discriminate | ].
  inversion Hrun; subst; clear Hrun.
  eexists _, body, _. split_and!; [reflexivity | reflexivity | reflexivity | ].
  unfold worker.lambda_handler. cbn [worker.for_records worker.Records].
  rewrite (process_record_text W 0 _ w
             [("tenant_id", PStr (header_tenant ev));
              ("log_id", PStr (uuid_str (ingest.uuid4 E)));
              ("original_text", PStr body); ("source", PStr "text_upload")] body).
  - cbv zeta. rewrite Hput. reflexivity.
  - cbn [worker.body envelope_message ingest.MessageBody]. exact (Hback body eq_refl).
  - reflexivity.
Qed.

End WorkerClaims.

(* ================================================================== *)
(** * Further properties of the Ingest Normalizer *)

Lemma lower_char_idempotent (c : ascii) : lower_char (lower_char c) = lower_char c.
Proof. destruct c as [[] [] [] [] [] [] [] []]; reflexivity. Qed.

Lemma lower_idempotent (s : string) : lower (lower s) = lower s.
Proof.
  induction s as [ | c s IH]; simpl; [reflexivity | ].
  now rewrite lower_char_idempotent, IH.
Qed.

Lemma header_ci_Some (name : string) (items : list (string * string)) (v : string) :
  header_ci name items = Some v -> exists k, (k, v) ∈ items /\ lower k = name.
Proof.
  induction items as [ | [k0 v0] items IH]; simpl; [discriminate | ].
  destruct (header_ci name items) as [x | ].
  - intros H. inversion H; subst x. destruct (IH eq_refl) as [k [Hin Hk]].
    exists k. split; [now apply list_elem_of_further | exact Hk].
  - destruct (String.eqb_spec (lower k0) name) as [Hk | ]; [ | discriminate].
    intros H. inversion H; subst v0. exists k0. split; [apply list_elem_of_here | exact Hk].
Qed.

Lemma header_ci_None (name : string) (items : list (string * string)) :
  header_ci name items = None <-> forall k v, (k, v) ∈ items -> lower k <> name.
Proof.
  induction items as [ | [k0 v0] items IH]; simpl.
  - split; [intros _ k v H; inversion H | reflexivity].
  - destruct (header_ci name items) as [x | ].
    + split; [discriminate | ]. intros H.
      destruct IH as [_ IH].
      assert (Hnone : Some x = None).
      { apply IH. intros k v Hin. apply (H k v). now apply list_elem_of_further. }
      discriminate.
    + destruct (String.eqb_spec (lower k0) name) as [Hk | Hk].
      * split; [discriminate | ]. intros H. contradiction (H k0 v0 (list_elem_of_here _ _)).
      * split; [ | reflexivity]. intros _ k v Hin. apply elem_of_cons in Hin.
        destruct Hin as [Heq | Hin]; [inversion Heq; subst; exact Hk | ].
        destruct IH as [IH _]. now apply (IH eq_refl k v).
Qed.

Lemma header_ci_app (name : string) (l1 l2 : list (string * string)) :
  header_ci name (l1 ++ l2)
  = match header_ci name l2 with
    | Some x => Some x
    | None => header_ci name l1
    end.
Proof.
  induction l1 as [ | [k v] l1 IH]; simpl.
  - now destruct (header_ci name l2).
  - rewrite IH. now destruct (header_ci name l2).
Qed.

Section IngestFurther.
Context {lib : PyLib}.

(** The dictionary of lowered headers has an entry under a name exactly
    when some header's name lowers to it, so every name in it is its own
    lowering: a lookup under a name with a capital letter finds nothing,
    whatever the caller sent. *)
Theorem lower_keys_names_are_lowercase (items : list (string * string)) (name : string) :
  (is_Some (ingest.lower_keys items !! name)
   <-> exists k v, (k, v) ∈ items /\ lower k = name)
  /\ (lower name <> name -> ingest.lower_keys items !! name = None).
Proof.
  rewrite lower_keys_lookup.
  assert (Hdom : is_Some (header_ci name items)
                 <-> exists k v, (k, v) ∈ items /\ lower k = name).
  { split.
    - intros [v Hv]. apply header_ci_Some in Hv. destruct Hv as [k Hk]. eauto.
    - intros [k [v [Hin Hk]]]. destruct (header_ci name items) as [x | ] eqn:Hx; [eauto | ].
      destruct (header_ci_None name items) as [Hnone _].
      contradiction (Hnone Hx k v Hin). }
  split; [exact Hdom | ].
  intros Hcap. destruct (header_ci name items) as [x | ] eqn:Hx; [ | reflexivity].
  destruct Hdom as [Hdom _]. destruct (Hdom (ex_intro _ x eq_refl)) as [k [v [_ Hk]]].
  contradiction Hcap. rewrite <- Hk. apply lower_idempotent.
Qed.

(** When several headers have names that lower to the same name, the one
    that comes last in the event is the one the handler reads. *)
Theorem lower_keys_last_spelling_wins
    (pre post : list (string * string)) (k v : string) :
  (forall k' v', (k', v') ∈ post -> lower k' <> lower k) ->
  ingest.lower_keys (pre ++ (k, v) :: post) !! lower k = Some v.
Proof.
  intros Hpost. rewrite lower_keys_lookup, header_ci_app. simpl.
  destruct (header_ci_None (lower k) post) as [_ Hnone]. rewrite (Hnone Hpost).
  now rewrite String.eqb_refl.
Qed.

(** A body flagged as base64 is handled exactly as the text it decodes to
    would be when sent unflagged: same response, same queue. *)
Theorem ingest_base64_body_is_its_decoding
    (E : ingest.env) (ev : ingest.event) (q : ingest.sqs) (bytes text : string) :
  ingest.ev_isBase64Encoded ev = Some true ->
  b64decode (default "" (ingest.ev_body ev)) = Ok bytes ->
  utf8_decode bytes = Ok text ->
  ingest.lambda_handler E ev q
  = ingest.lambda_handler E
      {| ingest.ev_headers := ingest.ev_headers ev;
         ingest.ev_body := Some text;
         ingest.ev_isBase64Encoded := Some false |} q.
Proof.
  intros Hflag Hb Hu. rewrite !lambda_handler_run. unfold normalized, body_text.
  rewrite Hflag. simpl. rewrite Hb. simpl. rewrite Hu. reflexivity.
Qed.

(** A plain-text submission is never refused for its body: whatever the
    text, the empty text and a missing body included, and whether or not a
    tenant header came with it, the handler sends the envelope; the answer
    is 202 when the queue takes it and 500 when the queue raises. *)
Theorem ingest_plain_text_is_taken_as_is
    (E : ingest.env) (ev : ingest.event) (q : ingest.sqs) :
  default false (ingest.ev_isBase64Encoded ev) = false ->
  contains "application/json" (content_type ev) = false ->
  contains "text/plain" (content_type ev) = true ->
  ingest.lambda_handler E ev q
  = match ingest.sqs_fault E (ingest.sqs_calls q) with
    | None =>
        (response_202 (PStr (uuid_str (ingest.uuid4 E))),
         enqueued q
           (envelope_message E
              (PStr (header_tenant ev), PStr (default "" (ingest.ev_body ev)),
               "text_upload", PStr (uuid_str (ingest.uuid4 E)))))
    | Some _ => (response_500, refused q)
    end.
Proof.
  intros Hflag Hj Ht. rewrite lambda_handler_run. unfold normalized, body_text.
  rewrite Hflag, Hj, Ht. reflexivity.
Qed.

(** A JSON object is never refused for its fields: the values under
    [tenant_id], [text] and [log_id] go into the envelope as they are,
    whatever their JSON type, a missing one is replaced by ["unknown"],
    [""] and the generated UUID respectively, and the identifier of the
    response is the one of the envelope. *)
Theorem ingest_json_object_is_taken_as_is
    (E : ingest.env) (ev : ingest.event) (q : ingest.sqs) (body : string)
    (d : list (string * pyval)) :
  body_text ev = Ok body ->
  contains "application/json" (content_type ev) = true ->
  json_loads body = Ok (PDict d) ->
  ingest.lambda_handler E ev q
  = match ingest.sqs_fault E (ingest.sqs_calls q) with
    | None =>
        (response_202 (default (PStr (uuid_str (ingest.uuid4 E))) (dict_lookup d "log_id")),
         enqueued q
           (envelope_message E
              (default (PStr "unknown") (dict_lookup d "tenant_id"),
               default (PStr "") (dict_lookup d "text"),
               "json_upload",
               default (PStr (uuid_str (ingest.uuid4 E))) (dict_lookup d "log_id"))))
    | Some _ => (response_500, refused q)
    end.
Proof.
  intros Hbody Hct Hjson. rewrite lambda_handler_run. unfold normalized.
  rewrite Hbody, Hct. unfold json_fields. rewrite Hjson. reflexivity.
Qed.

(** Of the headers, the handler reads two: two events with the same body
    and flag and the same content type are handled alike whatever their
    other headers, provided that, when the content type is plain text and
    not JSON, they name the same tenant.  In particular the tenant header
    is ignored on a JSON submission. *)
Theorem ingest_reads_two_headers
    (E : ingest.env) (ev1 ev2 : ingest.event) (q : ingest.sqs) :
  ingest.ev_body ev1 = ingest.ev_body ev2 ->
  ingest.ev_isBase64Encoded ev1 = ingest.ev_isBase64Encoded ev2 ->
  content_type ev1 = content_type ev2 ->
  (contains "application/json" (content_type ev1) = false ->
   contains "text/plain" (content_type ev1) = true ->
   header_tenant ev1 = header_tenant ev2) ->
  ingest.lambda_handler E ev1 q = ingest.lambda_handler E ev2 q.
Proof.
  intros Hb Hf Hct Hten. rewrite !lambda_handler_run.
  assert (Hn : normalized E ev1 = normalized E ev2).
  { unfold normalized, body_text. rewrite <- Hb, <- Hf, <- Hct.
    destruct (if default false (ingest.ev_isBase64Encoded ev1) then _ else _);
      [ | reflexivity].
    destruct (contains "application/json" (content_type ev1)); [reflexivity | ].
    destruct (contains "text/plain" (content_type ev1)); [ | reflexivity].
    now rewrite Hten. }
  now rewrite Hn.
Qed.

(** One call of the handler either answers 202 and appends one message
    addressed to the queue URL, or answers another status and leaves the
    queue's messages as they were. *)
Lemma lambda_handler_queue_step (E : ingest.env) (ev : ingest.event) (q : ingest.sqs) :
  (ingest.statusCode (fst (ingest.lambda_handler E ev q)) = 202%Z
   /\ exists m, ingest.QueueUrl m = ingest.QUEUE_URL E
                /\ snd (ingest.lambda_handler E ev q) = enqueued q m)
  \/ (ingest.statusCode (fst (ingest.lambda_handler E ev q)) <> 202%Z
      /\ ingest.sqs_queue (snd (ingest.lambda_handler E ev q)) = ingest.sqs_queue q
      /\ ingest.sqs_calls q <= ingest.sqs_calls (snd (ingest.lambda_handler E ev q))
         <= S (ingest.sqs_calls q)).
Proof.
  rewrite lambda_handler_run.
  assert (Hret : forall r, normalized E ev = ingest.Return r -> ingest.statusCode r = 400%Z).
  { unfold normalized, json_fields. intros r.
    destruct (body_text ev); [ | discriminate].
    destruct (contains "application/json" _).
    - destruct (json_loads _) as [[ | | | | | | ] | []]; try discriminate;
        intros H; inversion H; reflexivity.
    - destruct (contains "text/plain" _); [discriminate | ].
      intros H; inversion H; reflexivity. }
  destruct (normalized E ev) as [[[[t p] s] l] | r | e].
  - destruct (ingest.sqs_fault E _); simpl.
    + right. split_and!; [discriminate | reflexivity | lia | lia].
    + left. split; [reflexivity | ]. eexists. split; [ | reflexivity]. reflexivity.
  - right. simpl. rewrite (Hret r eq_refl). split_and!; [discriminate | reflexivity | lia | lia].
  - right. simpl. split_and!; [discriminate | reflexivity | lia | lia].
Qed.

Lemma serve_run (url : string) (invs : list ingest.invocation) :
  forall q,
    exists new,
      length (fst (ingest.serve url invs q)) = length invs
      /\ ingest.sqs_queue (snd (ingest.serve url invs q)) = ingest.sqs_queue q ++ new
      /\ length new = accepted (fst (ingest.serve url invs q))
      /\ Forall (fun m => ingest.QueueUrl m = url) new
      /\ ingest.sqs_calls q <= ingest.sqs_calls (snd (ingest.serve url invs q))
         <= ingest.sqs_calls q + length invs.
Proof.
  induction invs as [ | i invs IH]; intros q; simpl.
  - exists []. rewrite app_nil_r. split_and!; try reflexivity; try lia. apply Forall_nil_2.
  - pose proof (lambda_handler_queue_step
                  {| ingest.QUEUE_URL := url; ingest.uuid4 := ingest.inv_uuid4 i;
                     ingest.sqs_fault := ingest.inv_sqs_fault i |}
                  (ingest.inv_event i) q) as Hstep.
    destruct (ingest.lambda_handler _ (ingest.inv_event i) q) as [r q1].
    specialize (IH q1). destruct (ingest.serve url invs q1) as [rs q2].
    simpl in *. destruct IH as [new [Hlen [Hq [Hacc [Hurl Hcalls]]]]].
    destruct Hstep as [[Hst [m [Hm Hq1]]] | [Hst [Hq1 Hc1]]].
    + exists (m :: new). subst q1. simpl in *.
      split_and!; [now rewrite Hlen | now rewrite Hq, <- app_assoc | | | lia | lia].
      * unfold accepted in *. rewrite filter_cons_True by exact Hst. simpl. now rewrite Hacc.
      * constructor; assumption.
    + exists new.
      split_and!; [now rewrite Hlen | now rewrite Hq, Hq1 | | exact Hurl | lia | lia].
      unfold accepted in *. now rewrite filter_cons_False by exact Hst.
Qed.

(** Without [QUEUE_URL] in the environment the import raises [KeyError]
    and no event is handled: an answer is given only when the variable is
    set.  With it, the handler answers every event of
    a sequence, the queue keeps what it held and gains exactly one message
    per 202 response, every one of them addressed to the URL the import
    read, and the handler calls the queue at most once per event. *)
Theorem ingest_accepted_responses_are_the_messages
    (environ : gmap string string) (invs : list ingest.invocation) (q : ingest.sqs) :
  match ingest.container environ invs q with
  | Raise e => environ !! "QUEUE_URL" = None /\ e = KeyError
  | Ok (rs, q') =>
      exists url new,
        environ !! "QUEUE_URL" = Some url
        /\ length rs = length invs
        /\ ingest.sqs_queue q' = ingest.sqs_queue q ++ new
        /\ length new = accepted rs
        /\ Forall (fun m => ingest.QueueUrl m = url) new
        /\ ingest.sqs_calls q <= ingest.sqs_calls q' <= ingest.sqs_calls q + length invs
  end.
Proof.
  unfold ingest.container, ingest.load_module.
  destruct (environ !! "QUEUE_URL") as [url | ]; simpl; [ | split; reflexivity].
  destruct (serve_run url invs q) as [new [Hlen [Hq [Hacc [Hurl Hcalls]]]]].
  destruct (ingest.serve url invs q) as [rs q']. simpl in *.
  exists url, new. split_and!; try assumption; try lia. reflexivity.
Qed.

End IngestFurther.

(* ================================================================== *)
(** * Further properties of the Batch Processor *)

Lemma str_take_short (n : nat) (s : string) : String.length s <= n -> str_take n s = s.
Proof.
  revert n. induction s as [ | c s IH]; intros [ | n] H; simpl in *; try reflexivity; [lia | ].
  rewrite IH by lia. reflexivity.
Qed.

Lemma latest_Some (k : pyval * pyval) (items : list worker.item) (it : worker.item) :
  latest k items = Some it -> it ∈ items /\ worker.item_key it = k.
Proof.
  induction items as [ | x items IH]; simpl; [discriminate | ].
  destruct (latest k items) as [y | ].
  - intros H. inversion H; subst y. destruct (IH eq_refl) as [Hin Hk].
    split; [now apply list_elem_of_further | exact Hk].
  - destruct (decide (worker.item_key x = k)) as [Hk | ]; [ | discriminate].
    intros H. inversion H; subst x. split; [apply list_elem_of_here | exact Hk].
Qed.

Lemma latest_None (k : pyval * pyval) (items : list worker.item) :
  latest k items = None <-> forall it, it ∈ items -> worker.item_key it <> k.
Proof.
  induction items as [ | x items IH]; simpl.
  - split; [intros _ it H; inversion H | reflexivity].
  - destruct (latest k items) as [y | ].
    + split; [discriminate | ]. intros H. destruct IH as [_ IH].
      assert (Hnone : Some y = None).
      { apply IH. intros it Hin. apply H. now apply list_elem_of_further. }
      discriminate.
    + destruct (decide (worker.item_key x = k)) as [Hk | Hk].
      * split; [discriminate | ]. intros H. contradiction (H x (list_elem_of_here _ _)).
      * split; [ | reflexivity]. intros _ it Hin. apply elem_of_cons in Hin.
        destruct Hin as [-> | Hin]; [exact Hk | ].
        destruct IH as [IH _]. now apply (IH eq_refl it).
Qed.

Lemma upsert_all_lookup (items : list worker.item) :
  forall (t : gmap (pyval * pyval) worker.item) (k : pyval * pyval),
    upsert_all t items !! k
    = match latest k items with
      | Some it => Some it
      | None => t !! k
      end.
Proof.
  unfold upsert_all. induction items as [ | x items IH]; intros t k; simpl; [reflexivity | ].
  rewrite IH. destruct (latest k items); [reflexivity | ].
  destruct (decide (worker.item_key x = k)) as [<- | Hne].
  - apply lookup_insert_eq.
  - now apply lookup_insert_ne.
Qed.

(** ** The leading bit of a float *)

(** A positive integer lies between the powers of two its number of
    binary digits names. *)
Lemma digits2_pos_bounds (p : positive) :
  (2 ^ (Z.pos (digits2_pos p) - 1) <= Z.pos p < 2 ^ Z.pos (digits2_pos p))%Z.
Proof.
  induction p as [p IH | p IH | ]; cbn [digits2_pos].
  - rewrite Pos2Z.inj_succ, (Pos2Z.inj_xI p).
    replace (Z.succ (Z.pos (digits2_pos p)) - 1)%Z
      with (Z.succ (Z.pos (digits2_pos p) - 1))%Z by lia.
    rewrite !Z.pow_succ_r by lia. lia.
  - rewrite Pos2Z.inj_succ, (Pos2Z.inj_xO p).
    replace (Z.succ (Z.pos (digits2_pos p)) - 1)%Z
      with (Z.succ (Z.pos (digits2_pos p) - 1))%Z by lia.
    rewrite !Z.pow_succ_r by lia. lia.
  - simpl. lia.
Qed.

Lemma Zdigits2_positive (m : Z) : (0 <= m)%Z -> (0 < Zdigits2 m)%Z -> (0 < m)%Z.
Proof. destruct m; simpl; lia. Qed.

Lemma Zdigits2_mono (a b : Z) : (0 < a <= b)%Z -> (Zdigits2 a <= Zdigits2 b)%Z.
Proof.
  intros [Ha Hab]. destruct a as [ | p | p]; try lia. destruct b as [ | q | q]; try lia.
  simpl. pose proof (digits2_pos_bounds p) as [Hp _].
  pose proof (digits2_pos_bounds q) as [_ Hq].
  assert (H : (2 ^ (Z.pos (digits2_pos p) - 1) < 2 ^ Z.pos (digits2_pos q))%Z) by lia.
  apply Z.pow_lt_mono_r_iff in H; lia.
Qed.

Lemma digits2_pos_mul (p q : positive) :
  (Z.pos (digits2_pos p) + Z.pos (digits2_pos q) - 1 <= Z.pos (digits2_pos (p * q)))%Z.
Proof.
  pose proof (digits2_pos_bounds p) as [Hp _].
  pose proof (digits2_pos_bounds q) as [Hq _].
  pose proof (digits2_pos_bounds (p * q)) as [_ Hpq].
  assert (H : (2 ^ (Z.pos (digits2_pos p) - 1 + (Z.pos (digits2_pos q) - 1))
               < 2 ^ Z.pos (digits2_pos (p * q)))%Z).
  { rewrite Z.pow_add_r by lia. rewrite Pos2Z.inj_mul in Hpq.
    eapply Z.le_lt_trans; [ | exact Hpq]. apply Z.mul_le_mono_nonneg; lia. }
  apply Z.pow_lt_mono_r_iff in H; lia.
Qed.

Lemma digits2_pos_iter_xO (d p : positive) :
  Z.pos (digits2_pos (Pos.iter xO p d)) = (Z.pos (digits2_pos p) + Z.pos d)%Z.
Proof.
  induction d as [ | d IH] using Pos.peano_ind.
  - simpl. lia.
  - rewrite Pos.iter_succ. cbn [digits2_pos]. lia.
Qed.

Lemma shr_1_digits (mrs : shr_record) :
  (0 <= shr_m mrs)%Z ->
  Zdigits2 (shr_m (shr_1 mrs)) = Z.max 0 (Zdigits2 (shr_m mrs) - 1).
Proof.
  destruct mrs as [m r s]. simpl.
  destruct m as [ | [p | p | ] | p]; simpl; intros H; lia.
Qed.

Lemma iter_pos_shr_1_digits (q : positive) :
  forall mrs : shr_record,
    (0 <= shr_m mrs)%Z ->
    Zdigits2 (shr_m (SpecFloat.iter_pos shr_1 q mrs))
    = Z.max 0 (Zdigits2 (shr_m mrs) - Z.pos q).
Proof.
  induction q as [q IH | q IH | ]; intros mrs H; simpl.
  - rewrite IH by (apply iter_pos_shr_1_nonneg, shr_1_nonneg, H).
    rewrite IH by (apply shr_1_nonneg, H). rewrite shr_1_digits by exact H. lia.
  - rewrite IH by (apply iter_pos_shr_1_nonneg, H). rewrite IH by exact H. lia.
  - apply shr_1_digits, H.
Qed.

Lemma shr_m_of_loc (m : Z) (l : location) : shr_m (shr_record_of_loc m l) = m.
Proof. destruct l as [ | [ | | ]]; reflexivity. Qed.

(** Aligning a positive mantissa keeps it positive and keeps the position
    of its leading bit. *)
Lemma shr_fexp_top_bit (m e : Z) (l : location) :
  (0 < m)%Z -> (-1074 < Zdigits2 m + e)%Z ->
  (0 < shr_m (fst (shr_fexp 53 1024 m e l)))%Z
  /\ (Zdigits2 (shr_m (fst (shr_fexp 53 1024 m e l))) + snd (shr_fexp 53 1024 m e l)
      = Zdigits2 m + e)%Z
  /\ (Zdigits2 m + e - 53 <= snd (shr_fexp 53 1024 m e l))%Z.
Proof.
  intros Hm Ht. unfold shr_fexp, shr, fexp, emin.
  destruct (Z.max (Zdigits2 m + e - 53) (3 - 1024 - 53) - e)%Z as [ | k | k] eqn:Hk;
    cbn [fst snd]; rewrite ?shr_m_of_loc; try (split_and!; lia).
  assert (Hd : Zdigits2 (shr_m (SpecFloat.iter_pos shr_1 k (shr_record_of_loc m l)))
               = Z.max 0 (Zdigits2 m - Z.pos k)).
  { rewrite iter_pos_shr_1_digits by (rewrite shr_m_of_loc; lia).
    now rewrite shr_m_of_loc. }
  split_and!; try lia.
  apply Zdigits2_positive; [ | lia].
  apply iter_pos_shr_1_nonneg. rewrite shr_m_of_loc. lia.
Qed.

Lemma round_nearest_even_bounds (m : Z) (l : location) :
  (m <= round_nearest_even m l <= m + 1)%Z.
Proof.
  destruct l as [ | [ | | ]]; simpl; try lia. destruct (Z.even m); lia.
Qed.

(** Rounding a positive number whose leading bit is above the subnormal
    range gives infinity or a positive float whose leading bit is at least
    as high; its exponent is at least that leading bit minus 53. *)
Lemma binary_round_aux_top_bit (m e : Z) (l : location) :
  (0 < m)%Z -> (-1074 < Zdigits2 m + e)%Z ->
  binary_round_aux 53 1024 false m e l = S754_infinity false
  \/ exists m' e',
       binary_round_aux 53 1024 false m e l = S754_finite false m' e'
       /\ (Zdigits2 m + e - 53 <= e')%Z
       /\ (Zdigits2 m + e <= Z.pos (digits2_pos m') + e')%Z.
Proof.
  intros Hm Ht. unfold binary_round_aux.
  pose proof (shr_fexp_top_bit m e l Hm Ht) as [H1 [H2 H3]].
  destruct (shr_fexp 53 1024 m e l) as [mrs' e']. cbn [fst snd] in H1, H2, H3.
  pose proof (round_nearest_even_bounds (shr_m mrs') (loc_of_shr_record mrs')) as Hr.
  set (m2 := round_nearest_even (shr_m mrs') (loc_of_shr_record mrs')) in *.
  assert (Hmono : (Zdigits2 (shr_m mrs') <= Zdigits2 m2)%Z) by (apply Zdigits2_mono; lia).
  assert (Hm2 : (0 < m2)%Z) by lia.
  assert (Ht2 : (-1074 < Zdigits2 m2 + e')%Z) by lia.
  pose proof (shr_fexp_top_bit m2 e' loc_Exact Hm2 Ht2) as [H4 [H5 H6]].
  destruct (shr_fexp 53 1024 m2 e' loc_Exact) as [mrs'' e'']. cbn [fst snd] in H4, H5, H6.
  destruct (shr_m mrs'') as [ | m' | m'] eqn:Hm'; try lia.
  destruct (e'' <=? 1024 - 53)%Z; [right | left; reflexivity].
  exists m', e''. simpl in H5. split_and!; [reflexivity | lia | lia].
Qed.

Lemma float_of_int_top_bit (p : positive) :
  worker.float_of_int (Z.pos p) = S754_infinity false
  \/ exists m' e',
       worker.float_of_int (Z.pos p) = S754_finite false m' e'
       /\ (Z.pos (digits2_pos p) <= Z.pos (digits2_pos m') + e')%Z.
Proof.
  unfold worker.float_of_int, binary_normalize, binary_round, worker.prec, worker.emax.
  assert (Ha : (0 < Z.pos (fst (shl_align p 0 (fexp 53 1024 (Z.pos (digits2_pos p) + 0)))))%Z
               /\ (Z.pos (digits2_pos (fst (shl_align p 0 (fexp 53 1024 (Z.pos (digits2_pos p) + 0)))))
                   + snd (shl_align p 0 (fexp 53 1024 (Z.pos (digits2_pos p) + 0)))
                   = Z.pos (digits2_pos p))%Z).
  { unfold shl_align. destruct (fexp 53 1024 (Z.pos (digits2_pos p) + 0) - 0)%Z as [ | d | d] eqn:Hd;
      cbn [fst snd]; try (split; lia).
    split; [lia | ]. rewrite digits2_pos_iter_xO. lia. }
  destruct (shl_align p 0 _) as [mz ez]. cbn [fst snd] in Ha. destruct Ha as [Hz Ht].
  assert (Htop : (-1074 < Zdigits2 (Z.pos mz) + ez)%Z) by (simpl; lia).
  destruct (binary_round_aux_top_bit (Z.pos mz) ez loc_Exact Hz Htop)
    as [Hinf | [m' [e' [Hr [He Hd]]]]].
  - now left.
  - right. exists m', e'. split; [exact Hr | ]. simpl in Hd. lia.
Qed.

(** From 32768 characters on the cost is above 800. *)
Lemma cost_of_int_large (n : Z) :
  (32768 <= n)%Z -> worker.fltb worker.f800 (cost_of_int n) = true.
Proof.
  intros Hn. destruct n as [ | p | p]; try lia.
  assert (Hp : (16 <= Z.pos (digits2_pos p))%Z).
  { pose proof (digits2_pos_bounds p) as [_ Hlt].
    assert (H : (2 ^ 15 < 2 ^ Z.pos (digits2_pos p))%Z) by (change (2 ^ 15)%Z with 32768%Z; lia).
    apply Z.pow_lt_mono_r_iff in H; lia. }
  unfold cost_of_int.
  destruct (float_of_int_top_bit p) as [-> | [mx [ex [-> Hx]]]]; [reflexivity | ].
  unfold worker.fmul, worker.f0_05, SFmul, worker.prec, worker.emax. cbn [xorb].
  pose proof (digits2_pos_mul mx 7205759403792794) as Hmul.
  assert (Hc : Z.pos (digits2_pos 7205759403792794) = 53%Z) by reflexivity.
  rewrite Hc in Hmul.
  assert (Hpos : (0 < Z.pos (mx * 7205759403792794))%Z) by lia.
  assert (Htop : (-1074 < Zdigits2 (Z.pos (mx * 7205759403792794)) + (ex + -57))%Z).
  { cbn [Zdigits2]. lia. }
  destruct (binary_round_aux_top_bit _ _ loc_Exact Hpos Htop)
    as [-> | [m' [e' [-> [He Hd]]]]]; [reflexivity | ].
  cbn [Zdigits2] in He. unfold worker.fltb, worker.f800, SFltb, SFcompare.
  destruct (Z.compare_spec (-43) e'); try reflexivity; lia.
Qed.

Lemma capped_from_16001_spec (fuel : nat) :
  forall n0 : Z,
    capped_from_16001 fuel n0 = true ->
    forall n, (n0 <= n < n0 + Z.of_nat fuel)%Z ->
              worker.fltb worker.f800 (cost_of_int n) = (16000 <? n)%Z.
Proof.
  induction fuel as [ | fuel IH]; intros n0 H n Hn; [lia | ].
  cbn [capped_from_16001] in H.
  destruct (Bool.eqb _ _) eqn:Heq; [ | discriminate].
  destruct (Z.eq_dec n n0) as [-> | Hne].
  - now apply Bool.eqb_prop in Heq.
  - apply (IH (n0 + 1)%Z H). lia.
Qed.

Lemma capped_from_16001_below_32768 : capped_from_16001 (Z.to_nat 32768) 0 = true.
Proof. vm_compute. reflexivity. Qed.

Lemma cost_above_800 (n : nat) :
  worker.fltb worker.f800 (worker.cost n) = (16000 <? Z.of_nat n)%Z.
Proof.
  change (worker.cost n) with (cost_of_int (Z.of_nat n)).
  destruct (Z_lt_le_dec (Z.of_nat n) 32768) as [Hlt | Hge].
  - apply (capped_from_16001_spec _ 0 capped_from_16001_below_32768).
    rewrite Z2Nat.id; lia.
  - rewrite (cost_of_int_large _ Hge). symmetry. apply Z.ltb_lt. lia.
Qed.

(** The sleep is the cost itself up to 16000 characters and 800 seconds
    from 16001 characters on, whatever the length: in binary64, rounding
    included, [n * 0.05] exceeds 800 exactly when [n] exceeds 16000. *)
Theorem worker_cap_starts_at_16001 (n : nat) :
  worker.capped (worker.cost n)
  = if (Z.of_nat n <=? 16000)%Z then worker.cost n else worker.f800.
Proof.
  unfold worker.capped. rewrite cost_above_800.
  destruct (Z.ltb_spec 16000 (Z.of_nat n)), (Z.leb_spec (Z.of_nat n) 16000);
    try reflexivity; lia.
Qed.

Section WorkerFurther.
Context {lib : PyLib}.

Lemma item_of_shift (k : nat) (E : worker.env) (i : nat) (r : worker.record) :
  item_of (shift_env k E) i r = item_of E (k + i) r.
Proof. reflexivity. Qed.

Lemma record_fails_shift (k : nat) (E : worker.env) (i : nat) (r : worker.record) :
  record_fails (shift_env k E) i r = record_fails E (k + i) r.
Proof. reflexivity. Qed.

Lemma failed_from_shift (k : nat) (E : worker.env) (rs : list worker.record) :
  forall i, failed_from (shift_env k E) i rs = failed_from E (k + i) rs.
Proof.
  induction rs as [ | r rs IH]; intros i; simpl; [reflexivity | ].
  now rewrite record_fails_shift, IH, Nat.add_succ_r.
Qed.

Lemma written_from_shift (k : nat) (E : worker.env) (rs : list worker.record) :
  forall i, written_from (shift_env k E) i rs = written_from E (k + i) rs.
Proof.
  induction rs as [ | r rs IH]; intros i; simpl; [reflexivity | ].
  now rewrite item_of_shift, IH, Nat.add_succ_r.
Qed.

Lemma written_from_app (E : worker.env) (l1 l2 : list worker.record) :
  forall i, written_from E i (l1 ++ l2)
            = written_from E i l1 ++ written_from E (i + length l1) l2.
Proof.
  induction l1 as [ | r l1 IH]; intros i; simpl.
  - now rewrite Nat.add_0_r.
  - rewrite IH, Nat.add_succ_r.
    destruct (item_of E i r); [destruct (worker.put_fault E i) | ]; reflexivity.
Qed.

(** A batch handled in one invocation leaves the same failures, table,
    writes and sleeps as its first part handled in one invocation and the
    rest in a second one that meets the same clock and store. *)
Theorem worker_batch_in_two_parts
    (E : worker.env) (l1 l2 : list worker.record) (w : worker.world) :
  worker.lambda_handler E {| worker.Records := l1 ++ l2 |} w
  = (fst (worker.lambda_handler E {| worker.Records := l1 |} w)
       ++ fst (worker.lambda_handler (shift_env (length l1) E) {| worker.Records := l2 |}
                 (snd (worker.lambda_handler E {| worker.Records := l1 |} w))),
     snd (worker.lambda_handler (shift_env (length l1) E) {| worker.Records := l2 |}
            (snd (worker.lambda_handler E {| worker.Records := l1 |} w)))).
Proof.
  unfold worker.lambda_handler. rewrite !for_records_run. simpl.
  rewrite failed_from_app, written_from_app, failed_from_shift, written_from_shift.
  simpl. rewrite Nat.add_0_r. f_equal. unfold upsert_all.
  rewrite foldl_app, List.map_app, concat_app, !app_assoc. reflexivity.
Qed.

Lemma failed_from_sublist (E : worker.env) (rs : list worker.record) :
  forall i, failed_from E i rs `sublist_of` List.map worker.messageId rs.
Proof.
  induction rs as [ | r rs IH]; intros i; simpl; [constructor | ].
  destruct (record_fails E i r); simpl.
  - apply sublist_skip, IH.
  - apply sublist_cons, IH.
Qed.

(** The failures are reported in the order of the batch: the list
    returned is the batch's list of identifiers with those of the
    succeeding records left out, so it is never longer than the batch, and
    it has no identifier twice when the batch has none twice. *)
Theorem worker_failures_keep_batch_order
    (E : worker.env) (ev : worker.event) (w : worker.world) :
  fst (worker.lambda_handler E ev w) `sublist_of` List.map worker.messageId (worker.Records ev)
  /\ length (fst (worker.lambda_handler E ev w)) <= length (worker.Records ev)
  /\ (NoDup (List.map worker.messageId (worker.Records ev))
      -> NoDup (fst (worker.lambda_handler E ev w))).
Proof.
  unfold worker.lambda_handler. rewrite for_records_run. simpl.
  pose proof (failed_from_sublist E (worker.Records ev) 0) as Hsub.
  split_and!; [exact Hsub | | ].
  - apply sublist_length in Hsub. now rewrite length_map in Hsub.
  - intros Hnd. eapply sublist_NoDup; eassumption.
Qed.

(** After a batch the table holds, under every key, the item of the last
    successful write of the batch with that key, and what it held before
    under the keys the batch did not write: earlier writes to the same
    key are overwritten, no other record is touched. *)
Theorem worker_table_holds_latest_write
    (E : worker.env) (ev : worker.event) (w : worker.world) (k : pyval * pyval) :
  exists items,
    worker.written (snd (worker.lambda_handler E ev w)) = worker.written w ++ items
    /\ worker.table (snd (worker.lambda_handler E ev w)) !! k
       = match latest k items with
         | Some it => Some it
         | None => worker.table w !! k
         end
    /\ (forall it, latest k items = Some it -> it ∈ items /\ worker.item_key it = k)
    /\ (latest k items = None <-> forall it, it ∈ items -> worker.item_key it <> k).
Proof.
  unfold worker.lambda_handler. rewrite for_records_run. simpl.
  exists (written_from E 0 (worker.Records ev)).
  split_and!; [reflexivity | apply upsert_all_lookup | apply latest_Some | apply latest_None].
Qed.


(** The worker does not require any field of the envelope: an object
    without [original_text] is treated as the empty text, slept for zero
    seconds and written with the preview ["... [REDACTED]"], and a missing
    [tenant_id], [log_id] or [source] is stored as [None]. *)
Theorem worker_envelope_without_text
    (E : worker.env) (i : nat) (r : worker.record) (w : worker.world)
    (d : list (string * pyval)) :
  json_loads (worker.body r) = Ok (PDict d) ->
  dict_lookup d "original_text" = None ->
  worker.put_fault E i = None ->
  worker.process_record E i r w
  = (Ok tt,
     {| worker.table :=
          <[(default PNone (dict_lookup d "tenant_id"),
             default PNone (dict_lookup d "log_id")) :=
              {| worker.tenant_id := default PNone (dict_lookup d "tenant_id");
                 worker.log_id := default PNone (dict_lookup d "log_id");
                 worker.source := default PNone (dict_lookup d "source");
                 worker.original_text := PStr "";
                 worker.modified_data := "... [REDACTED]";
                 worker.processed_at := worker.utcnow_isoformat E i |}]> (worker.table w);
        worker.written :=
          worker.written w
          ++ [{| worker.tenant_id := default PNone (dict_lookup d "tenant_id");
                 worker.log_id := default PNone (dict_lookup d "log_id");
                 worker.source := default PNone (dict_lookup d "source");
                 worker.original_text := PStr "";
                 worker.modified_data := "... [REDACTED]";
                 worker.processed_at := worker.utcnow_isoformat E i |}];
        worker.slept := worker.slept w ++ [S754_zero false] |}).
Proof.
  intros Hjson Htext Hput.
  unfold worker.process_record, worker.bind, worker.lift, worker.time_sleep, worker.put_item.
  rewrite Hjson. cbn [py_get]. rewrite Htext, Hput. reflexivity.
Qed.

Lemma sleeps_length (r : worker.record) : length (sleeps r) <= 1.
Proof.
  unfold sleeps. destruct (json_loads _) as [[ | | | | | | d] | ]; simpl; try lia.
  destruct (py_len _); simpl; lia.
Qed.

Lemma item_of_sleeps (E : worker.env) (i : nat) (r : worker.record) (it : worker.item) :
  item_of E i r = Ok it -> length (sleeps r) = 1.
Proof.
  unfold item_of, sleeps, build_item, rbind.
  destruct (json_loads _) as [[ | | | | | | d] | ]; try discriminate.
  destruct (py_len _); [reflexivity | discriminate].
Qed.

Lemma written_sleeps_records (E : worker.env) (rs : list worker.record) :
  forall i,
    length (written_from E i rs) <= length (concat (List.map sleeps rs)) <= length rs.
Proof.
  induction rs as [ | r rs IH]; intros i; simpl; [lia | ].
  rewrite length_app. specialize (IH (S i)). pose proof (sleeps_length r) as Hs.
  destruct (item_of E i r) as [it | ] eqn:Hit; [ | lia].
  apply item_of_sleeps in Hit. destruct (worker.put_fault E i); simpl; lia.
Qed.

(** The handler sleeps at most once per record, and it writes an item
    only for a record it has slept for: over a batch the writes are at
    most as many as the sleeps, and the sleeps at most as many as the
    records. *)
Theorem worker_sleeps_at_most_once_per_record
    (E : worker.env) (ev : worker.event) (w : worker.world) :
  exists items durations,
    worker.written (snd (worker.lambda_handler E ev w)) = worker.written w ++ items
    /\ worker.slept (snd (worker.lambda_handler E ev w)) = worker.slept w ++ durations
    /\ length items <= length durations <= length (worker.Records ev).
Proof.
  unfold worker.lambda_handler. rewrite for_records_run. simpl.
  exists (written_from E 0 (worker.Records ev)), (concat (List.map sleeps (worker.Records ev))).
  pose proof (written_sleeps_records E (worker.Records ev) 0) as [Hw Hs].
  split_and!; [reflexivity | reflexivity | exact Hw | exact Hs].
Qed.

(** A text of at most ten characters is stored whole in the preview:
    when the handler processes a record with such a payload and the store
    takes the item, the item it writes and upserts has the full text
    followed by the marker as [modified_data]; and the item is among the
    writes of every batch that has the record at that position. *)
Theorem worker_short_text_is_whole_in_preview
    (E : worker.env) (i : nat) (r : worker.record) (w : worker.world)
    (d : list (string * pyval)) (s : string) :
  json_loads (worker.body r) = Ok (PDict d) ->
  text_of d = PStr s ->
  String.length s <= 10 ->
  worker.put_fault E i = None ->
  exists it,
    fst (worker.process_record E i r w) = Ok tt
    /\ worker.written (snd (worker.process_record E i r w)) = worker.written w ++ [it]
    /\ worker.table (snd (worker.process_record E i r w)) !! worker.item_key it = Some it
    /\ worker.original_text it = PStr s
    /\ worker.modified_data it = s +:+ "... [REDACTED]"
    /\ forall (ev : worker.event) (w0 : worker.world),
         worker.Records ev !! i = Some r ->
         exists items,
           worker.written (snd (worker.lambda_handler E ev w0)) = worker.written w0 ++ items
           /\ it ∈ items.
Proof.
  intros Hjson Htext Hlen Hput.
  rewrite (process_record_text E i r w d s Hjson Htext). cbv zeta. rewrite Hput.
  cbn [fst snd worker.written worker.table].
  eexists. split_and!; [reflexivity | reflexivity | apply lookup_insert_eq | reflexivity | | ].
  - cbn [worker.modified_data]. now rewrite (str_take_short 10 s Hlen).
  - intros ev w0 Hi.
    apply (record_item_written E i r _ ev w0 (item_of_text E i r d s Hjson Htext) Hput Hi).
Qed.

(** A batch of which every record is reported as failed leaves the table
    and the log of writes as they were. *)
Theorem worker_failed_batch_leaves_table
    (E : worker.env) (ev : worker.event) (w : worker.world) :
  fst (worker.lambda_handler E ev w) = List.map worker.messageId (worker.Records ev) ->
  worker.table (snd (worker.lambda_handler E ev w)) = worker.table w
  /\ worker.written (snd (worker.lambda_handler E ev w)) = worker.written w.
Proof.
  unfold worker.lambda_handler. rewrite for_records_run. simpl. intros Hall.
  pose proof (failed_written_length E (worker.Records ev) 0) as Hlen.
  rewrite Hall, length_map in Hlen.
  assert (Hnil : written_from E 0 (worker.Records ev) = []).
  { destruct (written_from E 0 (worker.Records ev)); [reflexivity | simpl in Hlen; lia]. }
  rewrite Hnil. simpl. now rewrite app_nil_r.
Qed.

Lemma latest_app (k : pyval * pyval) (l1 l2 : list worker.item) :
  latest k (l1 ++ l2)
  = match latest k l2 with
    | Some it => Some it
    | None => latest k l1
    end.
Proof.
  induction l1 as [ | x l1 IH]; simpl.
  - now destruct (latest k l2).
  - rewrite IH. now destruct (latest k l2).
Qed.

Lemma worker_serve_run (invs : list worker.invocation) :
  forall w,
    exists items,
      length (fst (worker.serve invs w)) = length invs
      /\ worker.written (snd (worker.serve invs w)) = worker.written w ++ items
      /\ length (concat (fst (worker.serve invs w))) + length items
         = length (concat (List.map (fun i => worker.Records (worker.inv_event i)) invs))
      /\ forall k, worker.table (snd (worker.serve invs w)) !! k
                   = match latest k items with
                     | Some it => Some it
                     | None => worker.table w !! k
                     end.
Proof.
  induction invs as [ | i invs IH]; intros w; simpl.
  - exists []. rewrite app_nil_r. split_and!; reflexivity.
  - unfold worker.lambda_handler. rewrite for_records_run.
    match goal with
    | |- context [worker.serve invs ?w1] => specialize (IH w1); destruct (worker.serve invs w1) as [answers w2]
    end.
    simpl in *. destruct IH as [items [Hlen [Hw [Hcount Htable]]]].
    pose proof (failed_written_length (worker.inv_env i)
                  (worker.Records (worker.inv_event i)) 0) as Hfw.
    exists (written_from (worker.inv_env i) 0 (worker.Records (worker.inv_event i)) ++ items).
    split_and!.
    + now rewrite Hlen.
    + now rewrite Hw, app_assoc.
    + rewrite !length_app. lia.
    + intros k. rewrite Htable, latest_app, upsert_all_lookup.
      now destruct (latest k items).
Qed.

(** Without [TABLE_NAME] in the environment the import raises [KeyError]
    and no batch is handled.  With it, over any sequence of batches, every
    record is either reported as failed in the answer to its batch or
    written, and the table ends up holding, under every key, the last item
    written with that key by any of the batches, and what it held before
    under the keys none of them wrote. *)
Theorem worker_batches_account_for_every_record
    (environ : gmap string string) (invs : list worker.invocation) (w : worker.world) :
  match worker.container environ invs w with
  | Raise e => environ !! "TABLE_NAME" = None /\ e = KeyError
  | Ok (answers, w') =>
      is_Some (environ !! "TABLE_NAME")
      /\ exists items,
           length answers = length invs
           /\ worker.written w' = worker.written w ++ items
           /\ length (concat answers) + length items
              = length (concat (List.map (fun i => worker.Records (worker.inv_event i)) invs))
           /\ forall k, worker.table w' !! k
                        = match latest k items with
                          | Some it => Some it
                          | None => worker.table w !! k
                          end
  end.
Proof.
  unfold worker.container, worker.load_module.
  destruct (environ !! "TABLE_NAME") as [name | ]; simpl; [ | split; reflexivity].
  destruct (worker_serve_run invs w) as [items H].
  destruct (worker.serve invs w) as [answers w']. simpl in H.
  split; [eauto | ]. exists items. exact H.
Qed.

(** A JSON submission whose [text] is neither a string nor an array is
    accepted all the same, and the message it enqueues can never be
    processed: when the JSON library reads back what it dumped for the
    envelope, the worker reports that message as failed in every
    invocation, whatever the clock and the store, and writes nothing. *)
Theorem handoff_unprocessable_text_is_accepted
    (E : ingest.env) (ev : ingest.event) (q : ingest.sqs) (body : string)
    (d : list (string * pyval)) (id : string) :
  body_text ev = Ok body ->
  contains "application/json" (content_type ev) = true ->
  json_loads body = Ok (PDict d) ->
  ingest.sqs_fault E (ingest.sqs_calls q) = None ->
  (forall s, default (PStr "") (dict_lookup d "text") <> PStr s) ->
  (forall l, default (PStr "") (dict_lookup d "text") <> PList l) ->
  json_loads
    (json_dumps
       (ingest.message (default (PStr "unknown") (dict_lookup d "tenant_id"))
          (default (PStr (uuid_str (ingest.uuid4 E))) (dict_lookup d "log_id"))
          (default (PStr "") (dict_lookup d "text")) "json_upload"))
  = Ok (ingest.message (default (PStr "unknown") (dict_lookup d "tenant_id"))
          (default (PStr (uuid_str (ingest.uuid4 E))) (dict_lookup d "log_id"))
          (default (PStr "") (dict_lookup d "text")) "json_upload") ->
  ingest.statusCode (fst (ingest.lambda_handler E ev q)) = 202%Z
  /\ exists m,
       ingest.sqs_queue (snd (ingest.lambda_handler E ev q)) = ingest.sqs_queue q ++ [m]
       /\ forall (W : worker.env) (w : worker.world),
            fst (worker.lambda_handler W
                   {| worker.Records :=
                        [{| worker.messageId := id; worker.body := ingest.MessageBody m |}] |}
                   w)
            = [id]
            /\ worker.table
                 (snd (worker.lambda_handler W
                         {| worker.Records :=
                              [{| worker.messageId := id;
                                  worker.body := ingest.MessageBody m |}] |}
                         w))
               = worker.table w.
Proof.
  intros Hbody Hct Hjson Hup Hstr Hlist Hback.
  rewrite lambda_handler_run. unfold normalized. rewrite Hbody, Hct.
  unfold json_fields. rewrite Hjson, Hup. cbn [fst snd].
  split; [reflexivity | ]. eexists. split; [reflexivity | ].
  intros W w. unfold worker.lambda_handler. rewrite for_records_run.
  cbn [fst snd worker.Records worker.table failed_from written_from envelope_message
         ingest.MessageBody].
  assert (Hitem : exists e,
             item_of W 0
               {| worker.messageId := id;
                  worker.body :=
                    json_dumps
                      (ingest.message (default (PStr "unknown") (dict_lookup d "tenant_id"))
                         (default (PStr (uuid_str (ingest.uuid4 E))) (dict_lookup d "log_id"))
                         (default (PStr "") (dict_lookup d "text")) "json_upload") |}
             = Raise e).
  { unfold item_of. cbn [worker.body]. rewrite Hback. unfold ingest.message, build_item, text_of.
    cbn [dict_lookup String.eqb Ascii.eqb Bool.eqb].
    destruct (default (PStr "") (dict_lookup d "text")) as [ | b | z | f | s | l | d'];
      cbn; eauto.
    - contradiction (Hstr s eq_refl).
    - contradiction (Hlist l eq_refl). }
  destruct Hitem as [e He].
  assert (Hfail : record_fails W 0
                    {| worker.messageId := id;
                       worker.body :=
                         json_dumps
                           (ingest.message (default (PStr "unknown") (dict_lookup d "tenant_id"))
                              (default (PStr (uuid_str (ingest.uuid4 E)))
                                 (dict_lookup d "log_id"))
                              (default (PStr "") (dict_lookup d "text")) "json_upload") |}
                  = true).
  { destruct (record_fails W 0 _) eqn:Hr; [reflexivity | ].
    apply record_fails_item in Hr. destruct Hr as [it [Hit _]]. congruence. }
  rewrite Hfail, He. split; reflexivity.
Qed.

End WorkerFurther.

(* ================================================================== *)
(** * Concrete runs with the reference library *)

Example run_ev_json : ingest.lambda_handler E_up ev_json q_empty = (r_json, q_json).
Proof. vm_compute. reflexivity. Qed.

Example run_ev_text : ingest.lambda_handler E_up ev_text q_empty = (r_text, q_text).
Proof. vm_compute. reflexivity. Qed.

Example run_ev_json_lowercase_header :
  ingest.lambda_handler E_up
    {| ingest.ev_headers := Some [("content-type", "application/json")];
       ingest.ev_body := ingest.ev_body ev_json;
       ingest.ev_isBase64Encoded := Some false |} q_empty
  = (r_json, q_json).
Proof. vm_compute. reflexivity. Qed.

(** C5. The body [[]] declared as JSON parses to a list, which has no
    [get]: the handler answers 500 "Internal Server Error", not 400, and
    enqueues nothing. *)
Theorem ingest_json_array_body_is_server_error :
  json_loads "[]" = Ok (PList [])
  /\ ingest.lambda_handler E_up ev_array q_empty = (response_500, q_empty)
  /\ client_error (fst (ingest.lambda_handler E_up ev_array q_empty)) = false.
Proof. vm_compute. auto. Qed.

(** C4, counterexample. The one-character body ["a"] flagged as base64
    cannot be decoded, and the answer is 500, outside the 400 class. *)
Lemma ingest_undecodable_body_not_client_error :
  b64decode "a" = Raise BinasciiError
  /\ ingest.statusCode (fst (ingest.lambda_handler E_up ev_garbage q_empty)) = 500%Z
  /\ client_error (fst (ingest.lambda_handler E_up ev_garbage q_empty)) = false
  /\ snd (ingest.lambda_handler E_up ev_garbage q_empty) = q_empty.
Proof. vm_compute. auto. Qed.

(** C4, witness: base64 that decodes to the byte 0xFF, which is not
    UTF-8. *)
Lemma ingest_undecodable_body_witness :
  ingest.lambda_handler E_up ev_not_utf8 q_empty = (response_500, q_empty).
Proof.
  apply (ingest_undecodable_body_is_server_error E_up ev_not_utf8 q_empty UnicodeDecodeError).
  - reflexivity.
  - right. exists (String (ascii_of_nat 255) EmptyString). split; vm_compute; reflexivity.
Defined.

(** C6, witness: the structured submission of section 8. *)
Lemma ingest_json_envelope_witness :
  exists (body : string) (d : list (string * pyval)) (tenant_id log_id text : pyval),
    body_text ev_json = Ok body /\ json_loads body = Ok (PDict d) /\
    ingest.sqs_queue q_json
    = (ingest.sqs_queue q_empty
         ++ [{| ingest.QueueUrl := ingest.QUEUE_URL E_up;
                ingest.MessageBody :=
                  json_dumps (ingest.message tenant_id log_id text "json_upload") |}])%list /\
    r_json = response_202 log_id /\
    tenant_id = default (PStr "unknown") (dict_lookup d "tenant_id") /\
    text = default (PStr "") (dict_lookup d "text") /\
    (forall x, dict_lookup d "log_id" = Some x -> log_id = x) /\
    (dict_lookup d "log_id" = None ->
     log_id = PStr (uuid_str (ingest.uuid4 E_up))
     /\ String.length (uuid_str (ingest.uuid4 E_up)) = 36).
Proof.
  apply (ingest_json_envelope E_up ev_json q_empty q_json r_json); vm_compute; reflexivity.
Defined.

(** C7, witness: the plain-text submission of section 8. *)
Lemma ingest_text_envelope_witness :
  exists (body tenant : string),
    body_text ev_text = Ok body /\
    ingest.sqs_queue q_text
    = (ingest.sqs_queue q_empty
         ++ [{| ingest.QueueUrl := ingest.QUEUE_URL E_up;
                ingest.MessageBody :=
                  json_dumps (ingest.message (PStr tenant)
                                (PStr (uuid_str (ingest.uuid4 E_up))) (PStr body)
                                "text_upload") |}])%list /\
    (forall v, header_ci "x-tenant-id" (default [] (ingest.ev_headers ev_text)) = Some v ->
               tenant = v) /\
    (header_ci "x-tenant-id" (default [] (ingest.ev_headers ev_text)) = None ->
     tenant = "unknown") /\
    (forall items : list (string * string),
        lowered items = lowered (default [] (ingest.ev_headers ev_text)) ->
        ingest.lambda_handler E_up
          {| ingest.ev_headers := Some items;
             ingest.ev_body := ingest.ev_body ev_text;
             ingest.ev_isBase64Encoded := ingest.ev_isBase64Encoded ev_text |} q_empty
        = (r_text, q_text)).
Proof.
  apply (ingest_text_envelope E_up ev_text q_empty q_text r_text); vm_compute; reflexivity.
Defined.

(** With the queue unreachable the plain-text submission is answered 500
    after one [send_message] call. *)
Lemma ingest_failed_enqueue_is_one_call :
  ingest.lambda_handler E_down ev_text q_empty
  = (response_500, {| ingest.sqs_queue := []; ingest.sqs_calls := 1 |}).
Proof. vm_compute. reflexivity. Qed.

(** C8, witness: the plain-text submission of section 8. *)
Lemma ingest_enqueue_once_witness :
  ingest.sqs_calls q_text <= S (ingest.sqs_calls q_empty) /\
  (ingest.sqs_calls q_text <> ingest.sqs_calls q_empty ->
   exists f, fst (ingest.normalize E_up ev_text q_empty) = ingest.Next f) /\
  (forall f, fst (ingest.normalize E_up ev_text q_empty) = ingest.Next f ->
     ingest.sqs_calls q_text = S (ingest.sqs_calls q_empty)) /\
  (ingest.statusCode r_text = 202%Z ->
   exists f, fst (ingest.normalize E_up ev_text q_empty) = ingest.Next f
             /\ r_text = response_202 (log_id_of f)
             /\ ingest.sqs_calls q_text = S (ingest.sqs_calls q_empty)
             /\ ingest.sqs_queue q_text
                = (ingest.sqs_queue q_empty ++ [envelope_message E_up f])%list) /\
  (forall r0, fst (ingest.normalize E_up ev_text q_empty) = ingest.Return r0 ->
     r_text = r0 /\ q_text = q_empty) /\
  (forall e, fst (ingest.normalize E_up ev_text q_empty) = ingest.Throw e ->
     r_text = response_500 /\ q_text = q_empty) /\
  (ingest.statusCode r_text = 400%Z -> q_text = q_empty) /\
  (contains "application/json" (content_type ev_text) = false ->
   contains "text/plain" (content_type ev_text) = false -> q_text = q_empty) /\
  (forall body e,
      body_text ev_text = Ok body ->
      contains "application/json" (content_type ev_text) = true ->
      json_loads body = Raise e -> q_text = q_empty) /\
  (forall e, body_text ev_text = Raise e -> q_text = q_empty) /\
  (forall m, m ∈ ingest.sqs_queue q_text ->
             m ∈ ingest.sqs_queue q_empty
             \/ exists f, fst (ingest.normalize E_up ev_text q_empty) = ingest.Next f
                          /\ m = envelope_message E_up f).
Proof.
  apply (ingest_enqueue_once_after_normalization E_up ev_text q_empty q_text r_text).
  vm_compute. reflexivity.
Defined.

(** C9, witness: the structured submission of section 8. *)
Lemma ingest_enqueued_envelope_witness :
  ((ingest.statusCode r_json <> 202%Z /\ ingest.sqs_queue q_json = ingest.sqs_queue q_empty)
   \/ (ingest.statusCode r_json = 202%Z /\
       exists (tenant_id log_id original_text : pyval) (source : string),
         ingest.sqs_queue q_json
         = (ingest.sqs_queue q_empty
              ++ [{| ingest.QueueUrl := ingest.QUEUE_URL E_up;
                     ingest.MessageBody :=
                       json_dumps (PDict [("tenant_id", tenant_id);
                                          ("log_id", log_id);
                                          ("original_text", original_text);
                                          ("source", PStr source)]) |}])%list /\
         ((source = "json_upload"
           /\ contains "application/json" (content_type ev_json) = true)
          \/ (source = "text_upload"
              /\ contains "application/json" (content_type ev_json) = false
              /\ contains "text/plain" (content_type ev_json) = true)))) /\
  (forall body,
      body_text ev_json = Ok body ->
      contains "application/json" (content_type ev_json) = true ->
      json_loads body = Raise JSONDecodeError ->
      r_json = response_400_json /\ q_json = q_empty) /\
  (forall body v,
      body_text ev_json = Ok body ->
      contains "application/json" (content_type ev_json) = true ->
      json_loads body = Ok v -> (forall d, v <> PDict d) ->
      ingest.statusCode r_json <> 202%Z /\ q_json = q_empty) /\
  (contains "application/json" (content_type ev_json) = false ->
   contains "text/plain" (content_type ev_json) = false ->
   ingest.statusCode r_json <> 202%Z /\ q_json = q_empty
   /\ forall body, body_text ev_json = Ok body -> r_json = response_400_type) /\
  (forall e, body_text ev_json = Raise e -> ingest.statusCode r_json <> 202%Z /\ q_json = q_empty) /\
  (ingest.statusCode r_json = 202%Z ->
   exists body,
     body_text ev_json = Ok body
     /\ ((contains "application/json" (content_type ev_json) = true
          /\ exists d, json_loads body = Ok (PDict d))
         \/ (contains "application/json" (content_type ev_json) = false
             /\ contains "text/plain" (content_type ev_json) = true))).
Proof.
  apply (ingest_enqueued_envelope_well_formed E_up ev_json q_empty q_json r_json).
  vm_compute. reflexivity.
Defined.

(** C10, witness: a content type that names both formats takes
    scenario 1. *)
Lemma ingest_content_type_witness :
  ingest.lambda_handler E_up ev_both q_empty
  = handler_along E_up
      (ingest.json_scenario (js "{'tenant_id': 'acme', 'text': 'hello'}")
         (PStr (uuid_str (ingest.uuid4 E_up)))) q_empty
  /\ ingest.statusCode (fst (ingest.lambda_handler E_up ev_both q_empty)) = 202%Z.
Proof.
  split; [ | vm_compute; reflexivity].
  apply (ingest_content_type_classification E_up ev_both q_empty
           (js "{'tenant_id': 'acme', 'text': 'hello'}")); vm_compute; reflexivity.
Defined.

(** ** The worker on a batch of three *)

(** The literals are the floats they denote. *)
Example f0_05_is_the_literal : Ref.float_of_decimal false 5 (-2) = worker.f0_05.
Proof. vm_compute. reflexivity. Qed.

Example f800_is_the_literal : worker.float_of_int 800 = worker.f800.
Proof. vm_compute. reflexivity. Qed.

(** A payload of 16000 characters sleeps exactly 800 seconds, uncapped;
    one more character is capped; 20 characters sleep one second. *)
Example cost_at_the_ceiling :
  worker.cost 16000 = worker.f800
  /\ worker.capped (worker.cost 16000) = worker.cost 16000
  /\ worker.fltb worker.f800 (worker.cost 16001) = true
  /\ worker.capped (worker.cost 16001) = worker.f800
  /\ worker.capped (worker.cost 20) = worker.float_of_int 1.
Proof. vm_compute. auto. Qed.

Example run_batch3 :
  fst (worker.lambda_handler W_first batch3 w_empty) = ["m-2"]
  /\ worker.written (snd (worker.lambda_handler W_first batch3 w_empty))
     = [item_acme "2024-05-01T10:00:00.000000";
        {| worker.tenant_id := PStr "beta";
           worker.log_id := PStr "xyz";
           worker.source := PStr "text_upload";
           worker.original_text := PStr "hi there";
           worker.modified_data := "hi there... [REDACTED]";
           worker.processed_at := "2024-05-01T10:00:00.000000" |}].
Proof. split; vm_compute; reflexivity. Qed.

(** C1, witness: the batch of three with its middle record garbled
    returns that record's identifier and makes two writes. *)
Lemma worker_failures_witness :
  fst (worker.lambda_handler W_first batch3 w_empty) = [worker.messageId rec_garbled]
  /\ length (worker.written (snd (worker.lambda_handler W_first batch3 w_empty))) = 2.
Proof.
  destruct (worker_failures_are_the_failed_messages W_first batch3 w_empty)
    as (_ & _ & _ & Hthree).
  apply (Hthree [rec_acme] rec_garbled [rec_beta]).
  - reflexivity.
  - reflexivity.
  - vm_compute. reflexivity.
  - intros [ | [ | [ | j]]] r Hj Hne; simpl in Hj; try discriminate;
      inversion Hj; subst r; try (vm_compute; reflexivity).
    now contradiction Hne.
Defined.

(** C2, witness: the same message processed at two times leaves one
    record in a table that was empty, after two writes. *)
Lemma worker_redelivery_witness :
  let run1 := worker.lambda_handler W_first {| worker.Records := [rec_acme] |} w_empty in
  let run2 := worker.lambda_handler W_again {| worker.Records := [rec_acme] |} (snd run1) in
  size (worker.table (snd run2)) = 1
  /\ worker.table (snd run2) !! (PStr "acme", PStr "abc")
     = Some (item_acme "2024-05-01T10:05:00.000000")
  /\ worker.written (snd run2)
     = [item_acme "2024-05-01T10:00:00.000000"; item_acme "2024-05-01T10:05:00.000000"].
Proof.
  intros run1 run2.
  destruct (worker_redelivery_overwrites W_first W_again rec_acme w_empty)
    as (it1 & it2 & H1 & H2 & _ & _ & _ & Ht2 & Hl & _ & _ & Hw);
    try (vm_compute; reflexivity).
  assert (E1 : it1 = item_acme "2024-05-01T10:00:00.000000").
  { vm_compute in H1. now inversion H1. }
  assert (E2 : it2 = item_acme "2024-05-01T10:05:00.000000").
  { vm_compute in H2. now inversion H2. }
  subst it1 it2 run1 run2. split_and!.
  - rewrite Ht2. rewrite map_size_insert. reflexivity.
  - exact Hl.
  - exact Hw.
Defined.


(** ** Further runs *)

Lemma ingest_invalid_json_witness :
  ingest.lambda_handler E_up
    {| ingest.ev_headers := Some [("content-type", "application/json")];
       ingest.ev_body := Some "{not json";
       ingest.ev_isBase64Encoded := None |} q_empty
  = (response_400_json, q_empty).
Proof.
  apply (ingest_invalid_json_rejected E_up _ q_empty "{not json"); vm_compute; reflexivity.
Defined.

Lemma worker_preview_witness :
  exists it,
    worker.process_record W_first 0 rec_acme w_empty
    = (Ok tt,
       {| worker.table := <[worker.item_key it := it]> (worker.table w_empty);
          worker.written := worker.written w_empty ++ [it];
          worker.slept :=
            worker.slept w_empty
            ++ [worker.capped (worker.cost (String.length "hello world, again"))] |})
    /\ worker.original_text it = PStr "hello world, again"
    /\ worker.modified_data it = str_take 10 "hello world, again" +:+ "... [REDACTED]"
    /\ String.length (str_take 10 "hello world, again") <= 10
    /\ worker.processed_at it = worker.utcnow_isoformat W_first 0
    /\ forall (ev : worker.event) (w0 : worker.world),
         worker.Records ev !! 0 = Some rec_acme ->
         exists items,
           worker.written (snd (worker.lambda_handler W_first ev w0))
           = worker.written w0 ++ items
           /\ it ∈ items.
Proof.
  apply (worker_preview_is_redacted W_first 0 rec_acme w_empty
           [("tenant_id", PStr "acme"); ("log_id", PStr "abc");
            ("original_text", PStr "hello world, again"); ("source", PStr "json_upload")]
           "hello world, again");
    vm_compute; reflexivity.
Defined.

Lemma handoff_text_witness :
  exists (m : ingest.sqs_message) (body : string) (it : worker.item),
    ingest.sqs_queue q_text = ingest.sqs_queue q_empty ++ [m] /\
    body_text ev_text = Ok body /\
    it = {| worker.tenant_id := PStr (header_tenant ev_text);
            worker.log_id := PStr (uuid_str (ingest.uuid4 E_up));
            worker.source := PStr "text_upload";
            worker.original_text := PStr body;
            worker.modified_data := str_take 10 body +:+ "... [REDACTED]";
            worker.processed_at := worker.utcnow_isoformat W_first 0 |} /\
    worker.lambda_handler W_first
      {| worker.Records :=
           [{| worker.messageId := "m-9"; worker.body := ingest.MessageBody m |}] |} w_empty
    = ([],
       {| worker.table :=
            <[(PStr (header_tenant ev_text), PStr (uuid_str (ingest.uuid4 E_up))) := it]>
              (worker.table w_empty);
          worker.written := worker.written w_empty ++ [it];
          worker.slept :=
            worker.slept w_empty ++ [worker.capped (worker.cost (String.length body))] |}).
Proof.
  apply (handoff_text_submission E_up ev_text q_empty q_text r_text W_first w_empty "m-9").
  - vm_compute. reflexivity.
  - vm_compute. reflexivity.
  - vm_compute. reflexivity.
  - reflexivity.
  - intros body Hbody. assert (Hb : body = "hi there") by (now inversion Hbody).
    rewrite Hb. vm_compute. reflexivity.
  - reflexivity.
Defined.

Lemma ingest_non_object_json_witness :
  ingest.lambda_handler E_up
    {| ingest.ev_headers := Some [("Content-Type", "application/json; charset=utf-8")];
       ingest.ev_body := Some "null";
       ingest.ev_isBase64Encoded := None |} q_empty
  = (response_500, q_empty).
Proof.
  apply (ingest_non_object_json_is_server_error E_up _ q_empty "null" PNone);
    try (vm_compute; reflexivity).
  intros d. discriminate.
Defined.

(** ** Runs for the further properties *)

Lemma lower_keys_last_spelling_witness :
  ingest.lower_keys
    ([("X-Tenant-Id", "acme")] ++ ("x-tenant-ID", "beta") :: [("Content-Type", "text/plain")])
    !! lower "x-tenant-ID"
  = Some "beta".
Proof.
  apply (lower_keys_last_spelling_wins
           [("X-Tenant-Id", "acme")] [("Content-Type", "text/plain")] "x-tenant-ID" "beta").
  intros k' v' Hin. apply list_elem_of_singleton in Hin. inversion Hin; subst k' v'.
  vm_compute. discriminate.
Defined.

Lemma ingest_base64_body_witness :
  ingest.lambda_handler E_up ev_json_base64 q_empty
  = ingest.lambda_handler E_up
      {| ingest.ev_headers := ingest.ev_headers ev_json_base64;
         ingest.ev_body := Some (js "{'tenant_id': 'acme', 'text': 'hello'}");
         ingest.ev_isBase64Encoded := Some false |} q_empty.
Proof.
  apply (ingest_base64_body_is_its_decoding E_up ev_json_base64 q_empty
           (js "{'tenant_id': 'acme', 'text': 'hello'}")
           (js "{'tenant_id': 'acme', 'text': 'hello'}"));
    vm_compute; reflexivity.
Defined.

Lemma ingest_plain_text_witness :
  ingest.lambda_handler E_up ev_text_bare q_empty
  = (response_202 (PStr (uuid_str (ingest.uuid4 E_up))),
     enqueued q_empty
       (envelope_message E_up
          (PStr "unknown", PStr "", "text_upload", PStr (uuid_str (ingest.uuid4 E_up))))).
Proof.
  apply (ingest_plain_text_is_taken_as_is E_up ev_text_bare q_empty);
    vm_compute; reflexivity.
Defined.

Lemma ingest_json_object_witness :
  ingest.lambda_handler E_up ev_json_untyped q_empty
  = (response_202 PNone,
     enqueued q_empty
       (envelope_message E_up (PInt 7, PStr "", "json_upload", PNone))).
Proof.
  apply (ingest_json_object_is_taken_as_is E_up ev_json_untyped q_empty
           (js "{'tenant_id': 7, 'log_id': null}")
           [("tenant_id", PInt 7); ("log_id", PNone)]);
    vm_compute; reflexivity.
Defined.

Lemma ingest_reads_two_headers_witness :
  ingest.lambda_handler E_up ev_json_more_headers q_empty
  = ingest.lambda_handler E_up ev_json q_empty.
Proof.
  apply (ingest_reads_two_headers E_up ev_json_more_headers ev_json q_empty).
  - reflexivity.
  - reflexivity.
  - vm_compute. reflexivity.
  - intros Hj. vm_compute in Hj. discriminate.
Defined.


Lemma worker_envelope_without_text_witness :
  worker.process_record W_first 0 rec_bare w_empty
  = (Ok tt,
     {| worker.table :=
          <[(PNone, PNone) := item_bare "2024-05-01T10:00:00.000000"]> (worker.table w_empty);
        worker.written := worker.written w_empty ++ [item_bare "2024-05-01T10:00:00.000000"];
        worker.slept := worker.slept w_empty ++ [S754_zero false] |}).
Proof.
  apply (worker_envelope_without_text W_first 0 rec_bare w_empty []);
    vm_compute; reflexivity.
Defined.

Lemma worker_short_text_witness :
  exists it,
    fst (worker.process_record W_first 2 rec_beta w_empty) = Ok tt
    /\ worker.written (snd (worker.process_record W_first 2 rec_beta w_empty))
       = worker.written w_empty ++ [it]
    /\ worker.table (snd (worker.process_record W_first 2 rec_beta w_empty))
         !! worker.item_key it
       = Some it
    /\ worker.original_text it = PStr "hi there"
    /\ worker.modified_data it = "hi there" +:+ "... [REDACTED]"
    /\ forall (ev : worker.event) (w0 : worker.world),
         worker.Records ev !! 2 = Some rec_beta ->
         exists items,
           worker.written (snd (worker.lambda_handler W_first ev w0))
           = worker.written w0 ++ items
           /\ it ∈ items.
Proof.
  apply (worker_short_text_is_whole_in_preview W_first 2 rec_beta w_empty
           [("tenant_id", PStr "beta"); ("log_id", PStr "xyz");
            ("original_text", PStr "hi there"); ("source", PStr "text_upload")]
           "hi there").
  - vm_compute. reflexivity.
  - reflexivity.
  - vm_compute. lia.
  - reflexivity.
Defined.

Lemma worker_failed_batch_witness :
  worker.table (snd (worker.lambda_handler W_first {| worker.Records := [rec_garbled] |} w_empty))
  = worker.table w_empty
  /\ worker.written
       (snd (worker.lambda_handler W_first {| worker.Records := [rec_garbled] |} w_empty))
     = worker.written w_empty.
Proof.
  apply (worker_failed_batch_leaves_table W_first {| worker.Records := [rec_garbled] |} w_empty).
  vm_compute. reflexivity.
Defined.

Lemma handoff_unprocessable_text_witness :
  ingest.statusCode (fst (ingest.lambda_handler E_up ev_json_number_text q_empty)) = 202%Z
  /\ exists m,
       ingest.sqs_queue (snd (ingest.lambda_handler E_up ev_json_number_text q_empty))
       = ingest.sqs_queue q_empty ++ [m]
       /\ forall (W : worker.env) (w : worker.world),
            fst (worker.lambda_handler W
                   {| worker.Records :=
                        [{| worker.messageId := "m-7"; worker.body := ingest.MessageBody m |}] |}
                   w)
            = ["m-7"]
            /\ worker.table
                 (snd (worker.lambda_handler W
                         {| worker.Records :=
                              [{| worker.messageId := "m-7";
                                  worker.body := ingest.MessageBody m |}] |}
                         w))
               = worker.table w.
Proof.
  apply (handoff_unprocessable_text_is_accepted E_up ev_json_number_text q_empty
           (js "{'tenant_id': 'acme', 'text': 5}")
           [("tenant_id", PStr "acme"); ("text", PInt 5)] "m-7").
  - vm_compute. reflexivity.
  - vm_compute. reflexivity.
  - vm_compute. reflexivity.
  - reflexivity.
  - intros s. discriminate.
  - intros l. discriminate.
  - vm_compute. reflexivity.
Defined.
